(** * Tessellation app: the geometric core of [src/app/page.tsx]

    A shallow embedding of the edge extractor ([getShapeEdges]), the edge
    compatibility oracle ([areEdgesCompatible]), the snap resolver
    ([canTilesSnap]) and the symmetry mirror generator
    ([createSymmetryMirrors]).

    The TypeScript code computes on [number].  The embedding is written once,
    over an interface [Number] of the arithmetic the code uses, and is read
    in two models:
    - the real numbers ([RealModel]): exact arithmetic, in which the
      geometric properties are proved for all tiles;
    - IEEE-754 binary64 ([FloatModel], the kernel's primitive floats): the
      numbers the program runs on, rounding, division by zero and NaN
      included, in which the code is run on concrete tiles and the
      properties that do not depend on rounding are proved for all tiles. *)

From Stdlib Require Import ZArith List String Bool Lia.
From Stdlib Require Import Reals Lra.
From Stdlib Require Floats.
Import ListNotations.

Set Implicit Arguments.

(** ** Numbers *)

(** The operations of [number] the geometry uses.  [lit z] is an integer
    literal, [dec1 z] a literal with one decimal digit ([dec1 433] is
    [43.3]); [gt] and [lt] are the comparisons [>] and [<] as the conditions
    of the code read them. *)
Class Number (N : Type) := {
  lit : Z -> N;
  dec1 : Z -> N;
  add : N -> N -> N;
  sub : N -> N -> N;
  mul : N -> N -> N;
  div : N -> N -> N;
  neg : N -> N;
  Math_sqrt : N -> N;
  Math_abs : N -> N;
  gt : N -> N -> bool;
  lt : N -> N -> bool
}.

(** [Math.cos], [Math.sin] and [Math.PI]. *)
Class Trig (N : Type) := {
  Math_cos : N -> N;
  Math_sin : N -> N;
  Math_PI : N
}.

Declare Scope num_scope.
Delimit Scope num_scope with num.
Infix "+" := add : num_scope.
Infix "-" := sub : num_scope.
Infix "*" := mul : num_scope.
Infix "/" := div : num_scope.
Notation "- a" := (neg a) : num_scope.
Infix ">?" := gt (at level 70, no associativity) : num_scope.
Infix "<?" := lt (at level 70, no associativity) : num_scope.

(** ** Data model *)

Inductive ShapeType := triangle | square | hexagon | diamond.

Inductive SymmetryMode := none | horizontal | vertical | radial.

Module Point.
Record t (N : Type) := mk { x : N; y : N }.
End Point.

Module Tile.
Record t (N : Type) := mk {
  id : string;
  shape : ShapeType;
  x : N;
  y : N;
  rotation : N;
  color : string;
  isSymmetryMirror : option bool;
  originalId : option string
}.
End Tile.

Module Edge.
Record t (N : Type) := mk {
  start : Point.t N;
  end_ : Point.t N;
  length : N;
  midpoint : Point.t N;
  normal : Point.t N
}.
End Edge.

(** The result of [canTilesSnap]; [None] is the [null] of the code. *)
Record SnapResult (N : Type) := {
  canSnap : bool;
  snapPosition : option (Point.t N)
}.

(** The candidate [bestSnap] kept by the search loop of [canTilesSnap]. *)
Module BestSnap.
Record t (N : Type) := mk {
  edge1 : Edge.t N;
  edge2 : Edge.t N;
  distance : N
}.
End BestSnap.

(** ** The geometry, as the code computes it *)

Section Geometry.
Context {N : Type} `{Number N}.
Local Open Scope num_scope.

(** [Math.pow(v, 2)]: the square of [v]. *)
Definition Math_pow2 (v : N) : N := v * v.

(** The closure [transform] of [getShapeEdges]: a local point to world
    coordinates, for the [cos] and [sin] of the tile's rotation. *)
Definition transform (cos sin : N) (tile : Tile.t N) (localX localY : N)
  : Point.t N :=
  {| Point.x := Tile.x tile + (localX * cos - localY * sin);
     Point.y := Tile.y tile + (localX * sin + localY * cos) |}.

(** The [switch] over [tile.shape]: the world vertices, in catalog order. *)
Definition shapeVertices (cos sin : N) (tile : Tile.t N) : list (Point.t N) :=
  let transform := transform cos sin tile in
  match Tile.shape tile with
  | triangle =>
      [ transform (lit 0) (lit (-30));
        transform (lit 25) (lit 15);
        transform (lit (-25)) (lit 15) ]
  | square =>
      [ transform (lit (-25)) (lit (-25));
        transform (lit 25) (lit (-25));
        transform (lit 25) (lit 25);
        transform (lit (-25)) (lit 25) ]
  | hexagon =>
      [ transform (lit 50) (lit 0);
        transform (lit 25) (dec1 433);
        transform (lit (-25)) (dec1 433);
        transform (lit (-50)) (lit 0);
        transform (lit (-25)) (dec1 (-433));
        transform (lit 25) (dec1 (-433)) ]
  | diamond =>
      [ transform (lit 0) (lit (-30));
        transform (lit 30) (lit 0);
        transform (lit 0) (lit 30);
        transform (lit (-30)) (lit 0) ]
  end.

(** The body of the loop of [getShapeEdges]: the edge from [start] to
    [end_], its normal flipped when it points toward the center of the tile.
    There is no test on [length]: a zero length is divided by as it is. *)
Definition edgeBetween (tile : Tile.t N) (start end_ : Point.t N) : Edge.t N :=
  let dx := Point.x end_ - Point.x start in
  let dy := Point.y end_ - Point.y start in
  let length := Math_sqrt (dx * dx + dy * dy) in
  let midpoint :=
    {| Point.x := (Point.x start + Point.x end_) / lit 2;
       Point.y := (Point.y start + Point.y end_) / lit 2 |} in
  let normal := {| Point.x := dy / length; Point.y := - dx / length |} in
  let edgeToCenterX := Tile.x tile - Point.x midpoint in
  let edgeToCenterY := Tile.y tile - Point.y midpoint in
  let dotProduct :=
    Point.x normal * edgeToCenterX + Point.y normal * edgeToCenterY in
  let normal :=
    if dotProduct >? lit 0
    then {| Point.x := - Point.x normal; Point.y := - Point.y normal |}
    else normal in
  Edge.mk start end_ length midpoint normal.

(** The loop [for (i = 0; i < vertices.length; i++)], with
    [vertices[(i + 1) % vertices.length]] as the end of edge [i]; every
    iteration pushes its edge.  The index is always in range, so the default
    of [nth] is never used. *)
Definition edgesOfVertices (tile : Tile.t N) (vertices : list (Point.t N))
  : list (Edge.t N) :=
  let origin := {| Point.x := lit 0; Point.y := lit 0 |} in
  map (fun i =>
         edgeBetween tile
           (nth i vertices origin)
           (nth ((i + 1) mod List.length vertices) vertices origin))
      (seq 0 (List.length vertices)).

(** [getShapeEdges] after its first two lines, which bind [cos] and [sin]. *)
Definition getShapeEdgesWith (cos sin : N) (tile : Tile.t N) : list (Edge.t N) :=
  edgesOfVertices tile (shapeVertices cos sin tile).

Definition getShapeEdges `{Trig N} (tile : Tile.t N) : list (Edge.t N) :=
  let cos := Math_cos (Tile.rotation tile * Math_PI / lit 180) in
  let sin := Math_sin (Tile.rotation tile * Math_PI / lit 180) in
  getShapeEdgesWith cos sin tile.

(** The distance between the midpoints of two edges, computed the same way
    by [areEdgesCompatible] and by [canTilesSnap]. *)
Definition midpointDistance (edge1 edge2 : Edge.t N) : N :=
  Math_sqrt
    (Math_pow2 (Point.x (Edge.midpoint edge1) - Point.x (Edge.midpoint edge2)) +
     Math_pow2 (Point.y (Edge.midpoint edge1) - Point.y (Edge.midpoint edge2))).

(** [dotProduct] of [areEdgesCompatible]: the two normals. *)
Definition normalDot (edge1 edge2 : Edge.t N) : N :=
  Point.x (Edge.normal edge1) * Point.x (Edge.normal edge2) +
  Point.y (Edge.normal edge1) * Point.y (Edge.normal edge2).

(** [edgeDotProduct] of [areEdgesCompatible]: the normalised directions. *)
Definition edgeDotProduct (edge1 edge2 : Edge.t N) : N :=
  let edge1DirX := Point.x (Edge.end_ edge1) - Point.x (Edge.start edge1) in
  let edge1DirY := Point.y (Edge.end_ edge1) - Point.y (Edge.start edge1) in
  let edge2DirX := Point.x (Edge.end_ edge2) - Point.x (Edge.start edge2) in
  let edge2DirY := Point.y (Edge.end_ edge2) - Point.y (Edge.start edge2) in
  let edge1Len := Math_sqrt (edge1DirX * edge1DirX + edge1DirY * edge1DirY) in
  let edge2Len := Math_sqrt (edge2DirX * edge2DirX + edge2DirY * edge2DirY) in
  let edge1DirX := edge1DirX / edge1Len in
  let edge1DirY := edge1DirY / edge1Len in
  let edge2DirX := edge2DirX / edge2Len in
  let edge2DirY := edge2DirY / edge2Len in
  Math_abs (edge1DirX * edge2DirX + edge1DirY * edge2DirY).

(** The four gates, each an early [return false]. *)
Definition areEdgesCompatible (edge1 edge2 : Edge.t N) : bool :=
  let lengthDiff := Math_abs (Edge.length edge1 - Edge.length edge2) in
  if lengthDiff >? lit 2 then false
  else if midpointDistance edge1 edge2 >? lit 40 then false
  else if normalDot edge1 edge2 >? - dec1 9 then false
  else if edgeDotProduct edge1 edge2 <? dec1 9 then false
  else true.

(** One pass through the body of the inner loop of [canTilesSnap]:
    [if (!bestSnap || distance < bestSnap.distance) bestSnap = ...] under
    [if (areEdgesCompatible(edge1, edge2))]. *)
Definition considerPair (bestSnap : option (BestSnap.t N))
           (edge1 edge2 : Edge.t N) : option (BestSnap.t N) :=
  if areEdgesCompatible edge1 edge2 then
    let distance := midpointDistance edge1 edge2 in
    match bestSnap with
    | None => Some (BestSnap.mk edge1 edge2 distance)
    | Some best =>
        if distance <? BestSnap.distance best
        then Some (BestSnap.mk edge1 edge2 distance)
        else bestSnap
    end
  else bestSnap.

(** The two nested loops over [edges1] and [edges2]. *)
Definition findBestSnap (edges1 edges2 : list (Edge.t N))
  : option (BestSnap.t N) :=
  fold_left
    (fun bestSnap edge1 =>
       fold_left (fun bestSnap edge2 => considerPair bestSnap edge1 edge2)
                 edges2 bestSnap)
    edges1 None.

(** [canTilesSnap] once both edge lists are known. *)
Definition snapOfEdges (tile1 : Tile.t N) (edges1 edges2 : list (Edge.t N))
  : SnapResult N :=
  match findBestSnap edges1 edges2 with
  | None => {| canSnap := false; snapPosition := None |}
  | Some bestSnap =>
      let edge1 := BestSnap.edge1 bestSnap in
      let edge2 := BestSnap.edge2 bestSnap in
      let offsetX := Point.x (Edge.midpoint edge2) - Point.x (Edge.midpoint edge1) in
      let offsetY := Point.y (Edge.midpoint edge2) - Point.y (Edge.midpoint edge1) in
      let separation := lit 1 in
      let separationX := Point.x (Edge.normal edge2) * separation in
      let separationY := Point.y (Edge.normal edge2) * separation in
      {| canSnap := true;
         snapPosition :=
           Some {| Point.x := Tile.x tile1 + offsetX + separationX;
                   Point.y := Tile.y tile1 + offsetY + separationY |} |}
  end.

Definition canTilesSnap `{Trig N} (tile1 tile2 : Tile.t N) : SnapResult N :=
  let edges1 := getShapeEdges tile1 in
  let edges2 := getShapeEdges tile2 in
  snapOfEdges tile1 edges1 edges2.

End Geometry.

(** ** Symmetry mirrors *)

(** [generateId] reads [Math.random]: the identifiers are the successive
    draws of a source the program does not control. *)
Record IdSource := {
  draws : nat -> string;
  drawn : nat
}.

(** Computations that draw identifiers. *)
Definition Gen (A : Type) : Type := IdSource -> A * IdSource.

Definition ret {A : Type} (a : A) : Gen A := fun s => (a, s).

Definition bind {A B : Type} (m : Gen A) (k : A -> Gen B) : Gen B :=
  fun s => let (a, s') := m s in k a s'.

Notation "x <- m ;; k" := (bind m (fun x => k))
  (at level 61, m at next level, right associativity).

Definition generateId : Gen string :=
  fun s => (draws s (drawn s), {| draws := draws s; drawn := S (drawn s) |}).

Section Mirrors.
Context {N : Type} `{Number N}.
Local Open Scope num_scope.

(** The object literal [{ ...originalTile, id, x, y, isSymmetryMirror: true,
    originalId: originalTile.id }]: the spread copies every field, then
    [id], the reflected coordinate(s) and the two mirror marks overwrite
    theirs. *)
Definition mirrorTile (originalTile : Tile.t N) (id : string) (x y : N)
  : Tile.t N :=
  {| Tile.id := id;
     Tile.shape := Tile.shape originalTile;
     Tile.x := x;
     Tile.y := y;
     Tile.rotation := Tile.rotation originalTile;
     Tile.color := Tile.color originalTile;
     Tile.isSymmetryMirror := Some true;
     Tile.originalId := Some (Tile.id originalTile) |}.

(** [createSymmetryMirrors], with the [symmetryMode] of the component state
    as an argument. *)
Definition createSymmetryMirrors (symmetryMode : SymmetryMode)
           (originalTile : Tile.t N) : Gen (list (Tile.t N)) :=
  let centerX := lit 300 in
  let centerY := lit 300 in
  match symmetryMode with
  | none => ret []
  | horizontal =>
      id1 <- generateId ;;
      ret [ mirrorTile originalTile id1
              (centerX * lit 2 - Tile.x originalTile) (Tile.y originalTile) ]
  | vertical =>
      id1 <- generateId ;;
      ret [ mirrorTile originalTile id1
              (Tile.x originalTile) (centerY * lit 2 - Tile.y originalTile) ]
  | radial =>
      id1 <- generateId ;;
      id2 <- generateId ;;
      id3 <- generateId ;;
      ret [ mirrorTile originalTile id1
              (centerX * lit 2 - Tile.x originalTile) (Tile.y originalTile);
            mirrorTile originalTile id2
              (Tile.x originalTile) (centerY * lit 2 - Tile.y originalTile);
            mirrorTile originalTile id3
              (centerX * lit 2 - Tile.x originalTile)
              (centerY * lit 2 - Tile.y originalTile) ]
  end.

End Mirrors.

(** ** IEEE-754 binary64: the numbers the program runs on *)

Module FloatModel.
Import Floats.

(** An integer literal: exact for the small integers of the code. *)
Definition ofZ (z : Z) : float :=
  match z with
  | Zneg _ => PrimFloat.opp (PrimFloat.of_uint63 (Uint63.of_Z (Z.opp z)))
  | _ => PrimFloat.of_uint63 (Uint63.of_Z z)
  end.

(** A literal with one decimal digit, as the nearest double: the quotient of
    two exact doubles, correctly rounded. *)
Definition tenths (z : Z) : float := PrimFloat.div (ofZ z) (ofZ 10).

#[export] Instance float_Number : Number float := {
  lit := ofZ;
  dec1 := tenths;
  add := PrimFloat.add;
  sub := PrimFloat.sub;
  mul := PrimFloat.mul;
  div := PrimFloat.div;
  neg := PrimFloat.opp;
  Math_sqrt := PrimFloat.sqrt;
  Math_abs := PrimFloat.abs;
  gt := fun a b => PrimFloat.ltb b a;
  lt := PrimFloat.ltb
}.

(** [Math.cos(0)] and [Math.sin(0)], which ECMAScript fixes to 1 and +0: the
    [cos] and [sin] of [getShapeEdges] on a tile whose rotation is 0
    ([0 * Math.PI / 180] is 0). *)
Definition cos0 : float := 1%float.

Definition sin0 : float := 0%float.

(** A user-placed tile with rotation 0. *)
Definition unrotated (s : ShapeType) (x y : float) : Tile.t float :=
  Tile.mk "t" s x y 0%float "#3b82f6" None None.

(** [getShapeEdges] on a tile with rotation 0. *)
Definition edgesUnrotated (tile : Tile.t float) : list (Edge.t float) :=
  getShapeEdgesWith cos0 sin0 tile.

(** [canTilesSnap] on two tiles with rotation 0. *)
Definition snapUnrotated (tile1 tile2 : Tile.t float) : SnapResult float :=
  snapOfEdges tile1 (edgesUnrotated tile1) (edgesUnrotated tile2).

(** [edge.length === 0]. *)
Definition isZeroLength (e : Edge.t float) : bool :=
  PrimFloat.eqb (Edge.length e) 0%float.

(** [isNaN(edge.normal.x) || isNaN(edge.normal.y)]. *)
Definition hasNaNNormal (e : Edge.t float) : bool :=
  PrimFloat.is_nan (Point.x (Edge.normal e)) ||
  PrimFloat.is_nan (Point.y (Edge.normal e)).

(** The two vertices coincide: [dx == 0 && dy == 0] in the loop of
    [getShapeEdges]. *)
Definition coincide (start end_ : Point.t float) : bool :=
  PrimFloat.eqb (PrimFloat.sub (Point.x end_) (Point.x start)) 0%float &&
  PrimFloat.eqb (PrimFloat.sub (Point.y end_) (Point.y start)) 0%float.

(** No edge of the list has length zero. *)
Definition noZeroLength (edges : list (Edge.t float)) : bool :=
  forallb (fun e => negb (isZeroLength e)) edges.

(** No edge of the first list is compatible with an edge of the second. *)
Definition noCompatiblePair (edges1 edges2 : list (Edge.t float)) : bool :=
  forallb (fun e1 => forallb (fun e2 => negb (areEdgesCompatible e1 e2)) edges2)
          edges1.

(** An unrotated square so far to the right ([x = 2^60]) that adding the
    local abscissas -25 and 25 rounds back to [x]: its vertices coincide in
    pairs, and its top and bottom edges have length zero. *)
Definition farSquare : Tile.t float := unrotated square 0x1p60%float 0%float.

(** The two squares of scenario 2 and the expected snap position. *)
Definition squareA : Tile.t float := unrotated square 300%float 300%float.

Definition squareB : Tile.t float := unrotated square 360%float 300%float.

Definition snappedA : Point.t float :=
  {| Point.x := 309%float; Point.y := 300%float |}.

(** The square [A] moved to the snap position. *)
Definition squareAsnapped : Tile.t float := unrotated square 309%float 300%float.

(** Some edge of the first list and some edge of the second have midpoints
    at most 1.5 apart and are compatible. *)
Definition hasAlignedPair (edges1 edges2 : list (Edge.t float)) : bool :=
  existsb (fun e1 =>
             existsb (fun e2 =>
                        PrimFloat.leb (midpointDistance e1 e2) 1.5%float &&
                        areEdgesCompatible e1 e2)
                     edges2)
          edges1.

(** A tile at the origin. *)
Definition atOrigin (s : ShapeType) : Tile.t float := unrotated s 0%float 0%float.

(** A tile as [addShape] places it: at [(300, 300)], unrotated. *)
Definition asAdded (s : ShapeType) : Tile.t float := unrotated s 300%float 300%float.

End FloatModel.

(** ** The real numbers: exact arithmetic *)

Module RealModel.

Definition Rgtb (a b : R) : bool := if Rgt_dec a b then true else false.

Definition Rltb (a b : R) : bool := if Rlt_dec a b then true else false.

#[export] Instance R_Number : Number R := {
  lit := IZR;
  dec1 := fun z => (IZR z / 10)%R;
  add := Rplus;
  sub := Rminus;
  mul := Rmult;
  div := Rdiv;
  neg := Ropp;
  Math_sqrt := sqrt;
  Math_abs := Rabs;
  gt := Rgtb;
  lt := Rltb
}.

#[export] Instance R_Trig : Trig R := {
  Math_cos := cos;
  Math_sin := sin;
  Math_PI := PI
}.

(** A user-placed tile (no mirror fields). *)
Definition tileAt (s : ShapeType) (x y rotation : R) : Tile.t R :=
  Tile.mk "t" s x y rotation "#3b82f6" None None.


End RealModel.

(** ** Vocabulary of the statements *)

Import RealModel.

Section Catalog.
Context {N : Type} `{Number N}.

(** The number of vertices of each shape of the catalog. *)
Definition vertexCount (s : ShapeType) : nat :=
  match s with
  | triangle => 3
  | square => 4
  | hexagon => 6
  | diamond => 4
  end.

(** The local vertices that the [switch] of [getShapeEdges] transforms. *)
Definition localVertices (s : ShapeType) : list (N * N) :=
  match s with
  | triangle => [ (lit 0, lit (-30)); (lit 25, lit 15); (lit (-25), lit 15) ]
  | square =>
      [ (lit (-25), lit (-25)); (lit 25, lit (-25));
        (lit 25, lit 25); (lit (-25), lit 25) ]
  | hexagon =>
      [ (lit 50, lit 0); (lit 25, dec1 433); (lit (-25), dec1 433);
        (lit (-50), lit 0); (lit (-25), dec1 (-433)); (lit 25, dec1 (-433)) ]
  | diamond =>
      [ (lit 0, lit (-30)); (lit 30, lit 0); (lit 0, lit 30); (lit (-30), lit 0) ]
  end.

(** Each local vertex with its successor, the last with the first. *)
Definition localSides (s : ShapeType) : list ((N * N) * (N * N)) :=
  let vs := localVertices s in
  combine vs (tl vs ++ firstn 1 vs).

(** The world edge of a local side. *)
Definition edgeOfSide (cos sin : N) (tile : Tile.t N) (side : (N * N) * (N * N))
  : Edge.t N :=
  edgeBetween tile
    (transform cos sin tile (fst (fst side)) (snd (fst side)))
    (transform cos sin tile (fst (snd side)) (snd (snd side))).


(** What the search loop keeps is a compatible pair of the two lists. *)
Definition fromLists (edges1 edges2 : list (Edge.t N))
           (bestSnap : option (BestSnap.t N)) : Prop :=
  match bestSnap with
  | None => True
  | Some best =>
      In (BestSnap.edge1 best) edges1 /\
      In (BestSnap.edge2 best) edges2 /\
      areEdgesCompatible (BestSnap.edge1 best) (BestSnap.edge2 best) = true
  end.

(** What a mirror keeps of its primary, and how it is marked. *)
Definition keepsAppearance (originalTile mirror : Tile.t N) : Prop :=
  Tile.shape mirror = Tile.shape originalTile /\
  Tile.rotation mirror = Tile.rotation originalTile /\
  Tile.color mirror = Tile.color originalTile /\
  Tile.isSymmetryMirror mirror = Some true /\
  Tile.originalId mirror = Some (Tile.id originalTile).

(** The arithmetic laws behind the symmetry of [areEdgesCompatible]; they
    hold in both models. *)
Record SymmetricArithmetic : Prop := {
  mul_swap : forall a b : N, mul a b = mul b a;
  abs_sub_swap : forall a b : N, Math_abs (sub a b) = Math_abs (sub b a);
  square_sub_swap : forall a b : N, Math_pow2 (sub a b) = Math_pow2 (sub b a)
}.

End Catalog.

Section RealVocabulary.
Local Open Scope R_scope.

(** The world edge of the local side from [(px, py)] to [(qx, qy)] of a tile
    whose rotation has cosine [c] and sine [s]. *)
Definition sideEdge (tile : Tile.t R) (c s px py qx qy : R) : Edge.t R :=
  edgeBetween tile (transform c s tile px py) (transform c s tile qx qy).

(** The cross product that decides the flip of the normal: it is not
    negative when the side runs clockwise on the screen around the local
    origin (y grows downward). *)
Definition sideTurn (px py qx qy : R) : R :=
  (qy - py) * ((px + qx) / 2) - (qx - px) * ((py + qy) / 2).

(** The squared length of a local side. *)
Definition sideSquare (px py qx qy : R) : R :=
  (qx - px) * (qx - px) + (qy - py) * (qy - py).





(** The four edges of an unrotated square centered at [(x0, y0)]: top,
    right, bottom, left. *)
Definition squareEdges (x0 y0 : R) : list (Edge.t R) :=
  [ Edge.mk (Point.mk (x0 - 25) (y0 - 25)) (Point.mk (x0 + 25) (y0 - 25)) 50
            (Point.mk x0 (y0 - 25)) (Point.mk 0 (-1));
    Edge.mk (Point.mk (x0 + 25) (y0 - 25)) (Point.mk (x0 + 25) (y0 + 25)) 50
            (Point.mk (x0 + 25) y0) (Point.mk 1 0);
    Edge.mk (Point.mk (x0 + 25) (y0 + 25)) (Point.mk (x0 - 25) (y0 + 25)) 50
            (Point.mk x0 (y0 + 25)) (Point.mk 0 1);
    Edge.mk (Point.mk (x0 - 25) (y0 + 25)) (Point.mk (x0 - 25) (y0 - 25)) 50
            (Point.mk (x0 - 25) y0) (Point.mk (-1) 0) ].

(** Scenario 2 of the specification: square [A] at [(300, 300)], square [B]
    at [(360, 300)], both unrotated. *)
Definition tileA : Tile.t R := tileAt square 300 300 0.

Definition tileB : Tile.t R := tileAt square 360 300 0.

(** The edge of a degenerate side, used where a default is needed. *)
Definition noEdge : Edge.t R :=
  Edge.mk (Point.mk 0 0) (Point.mk 0 0) 0 (Point.mk 0 0) (Point.mk 0 0).

End RealVocabulary.

(** ** The application: state and handlers *)

(** What the handlers use of [number] beyond the geometry: the operators
    [%] and [===], [Math.max], [Math.min] and the test [a < Infinity]. *)
Class Operators (N : Type) := {
  rem : N -> N -> N;
  strictEq : N -> N -> bool;
  Math_max : N -> N -> N;
  Math_min : N -> N -> N;
  belowInfinity : N -> bool
}.

(** [Math.atan2]. *)
Class Atan2 (N : Type) := {
  Math_atan2 : N -> N -> N
}.

Module DragState.
Record t (N : Type) := mk {
  isDragging : bool;
  tileId : option string;
  offsetX : N;
  offsetY : N
}.
End DragState.

Module SuggestionPoint.
Record t (N : Type) := mk {
  x : N;
  y : N;
  shape : ShapeType;
  rotation : N
}.
End SuggestionPoint.

(** What the handlers read of [getBoundingClientRect()]. *)
Module Rect.
Record t (N : Type) := mk { left : N; top : N }.
End Rect.

(** The state of [TessellationApp] that the handlers read and write. *)
Module App.
Record t (N : Type) := mk {
  tiles : list (Tile.t N);
  selectedTile : option (Tile.t N);
  dragState : DragState.t N;
  selectedColor : string;
  symmetryMode : SymmetryMode;
  showSuggestions : bool
}.
End App.

(** [prev.map(f)] where [f] draws identifiers. *)
Fixpoint mapGen {A B : Type} (f : A -> Gen B) (l : list A) : Gen (list B) :=
  match l with
  | [] => ret []
  | a :: l' => b <- f a ;; bs <- mapGen f l' ;; ret (b :: bs)
  end.

(** The number of mirrors of each symmetry mode. *)
Definition mirrorCount (symmetryMode : SymmetryMode) : nat :=
  match symmetryMode with
  | none => 0
  | horizontal => 1
  | vertical => 1
  | radial => 3
  end.

(** A string used as a condition: [null] and the empty string are falsy. *)
Definition truthyId (tileId : option string) : option string :=
  match tileId with
  | Some s => if String.eqb s "" then None else Some s
  | None => None
  end.

Section Handlers.
Context {N : Type} `{Number N} `{Trig N} `{Operators N} `{Atan2 N}.
Local Open Scope num_scope.

(** [{ ...tile, x, y }]. *)
Definition withPosition (tile : Tile.t N) (x y : N) : Tile.t N :=
  {| Tile.id := Tile.id tile;
     Tile.shape := Tile.shape tile;
     Tile.x := x;
     Tile.y := y;
     Tile.rotation := Tile.rotation tile;
     Tile.color := Tile.color tile;
     Tile.isSymmetryMirror := Tile.isSymmetryMirror tile;
     Tile.originalId := Tile.originalId tile |}.

(** [{ ...tile, rotation }]. *)
Definition withRotation (tile : Tile.t N) (rotation : N) : Tile.t N :=
  {| Tile.id := Tile.id tile;
     Tile.shape := Tile.shape tile;
     Tile.x := Tile.x tile;
     Tile.y := Tile.y tile;
     Tile.rotation := rotation;
     Tile.color := Tile.color tile;
     Tile.isSymmetryMirror := Tile.isSymmetryMirror tile;
     Tile.originalId := Tile.originalId tile |}.

(** [tile.id === tileId]. *)
Definition hasId (tileId : string) (tile : Tile.t N) : bool :=
  String.eqb (Tile.id tile) tileId.

(** [setTiles]. *)
Definition setTiles (app : App.t N) (tiles : list (Tile.t N)) : App.t N :=
  {| App.tiles := tiles;
     App.selectedTile := App.selectedTile app;
     App.dragState := App.dragState app;
     App.selectedColor := App.selectedColor app;
     App.symmetryMode := App.symmetryMode app;
     App.showSuggestions := App.showSuggestions app |}.

(** [setTiles] and [setSelectedTile] together. *)
Definition setTilesAndSelected (app : App.t N) (tiles : list (Tile.t N))
           (selectedTile : option (Tile.t N)) : App.t N :=
  {| App.tiles := tiles;
     App.selectedTile := selectedTile;
     App.dragState := App.dragState app;
     App.selectedColor := App.selectedColor app;
     App.symmetryMode := App.symmetryMode app;
     App.showSuggestions := App.showSuggestions app |}.

(** [setDragState]. *)
Definition setDragState (app : App.t N) (dragState : DragState.t N) : App.t N :=
  {| App.tiles := App.tiles app;
     App.selectedTile := App.selectedTile app;
     App.dragState := dragState;
     App.selectedColor := App.selectedColor app;
     App.symmetryMode := App.symmetryMode app;
     App.showSuggestions := App.showSuggestions app |}.

(** [addShape]: the new tile at the canvas center, then its mirrors, after
    the tiles already there. *)
Definition addShape (shapeType : ShapeType) (app : App.t N) : Gen (App.t N) :=
  id <- generateId ;;
  let newTile :=
    {| Tile.id := id;
       Tile.shape := shapeType;
       Tile.x := lit 300;
       Tile.y := lit 300;
       Tile.rotation := lit 0;
       Tile.color := App.selectedColor app;
       Tile.isSymmetryMirror := None;
       Tile.originalId := None |} in
  mirrors <- createSymmetryMirrors (App.symmetryMode app) newTile ;;
  ret (setTiles app (App.tiles app ++ newTile :: mirrors)).

(** [rotateTile]. *)
Definition rotateTile (tileId : string) (app : App.t N) : App.t N :=
  setTiles app
    (map (fun tile =>
            if hasId tileId tile
            then withRotation tile (rem (Tile.rotation tile + lit 45) (lit 360))
            else tile)
         (App.tiles app)).

(** [duplicateTile]: nothing happens, and no identifier is drawn, when no
    tile has the id. *)
Definition duplicateTile (tileId : string) (app : App.t N) : Gen (App.t N) :=
  match find (hasId tileId) (App.tiles app) with
  | None => ret app
  | Some original =>
      id <- generateId ;;
      let duplicate :=
        {| Tile.id := id;
           Tile.shape := Tile.shape original;
           Tile.x := Tile.x original + lit 60;
           Tile.y := Tile.y original + lit 60;
           Tile.rotation := Tile.rotation original;
           Tile.color := Tile.color original;
           Tile.isSymmetryMirror := Tile.isSymmetryMirror original;
           Tile.originalId := Tile.originalId original |} in
      ret (setTiles app (App.tiles app ++ [duplicate]))
  end.

(** [deleteTile]. *)
Definition deleteTile (tileId : string) (app : App.t N) : App.t N :=
  setTilesAndSelected app
    (filter (fun t => negb (hasId tileId t)) (App.tiles app))
    (match App.selectedTile app with
     | Some selected => if hasId tileId selected then None else Some selected
     | None => None
     end).

(** The end of [handleKeyDown] after an arrow key: the tiles with the id of
    the selected tile, and the selected tile, are put at [(newX, newY)]. *)
Definition moveSelected (app : App.t N) (selected : Tile.t N) (newX newY : N)
  : App.t N :=
  setTilesAndSelected app
    (map (fun tile =>
            if hasId (Tile.id selected) tile
            then withPosition tile newX newY
            else tile)
         (App.tiles app))
    (Some (withPosition selected newX newY)).

(** [handleKeyDown], for the key [e.key] and the modifier [e.shiftKey]. *)
Definition handleKeyDown (key : string) (shiftKey : bool) (app : App.t N)
  : Gen (App.t N) :=
  match App.selectedTile app with
  | None => ret app
  | Some selectedTile =>
      let moveDistance := if shiftKey then lit 10 else lit 1 in
      if String.eqb key "ArrowLeft" then
        ret (moveSelected app selectedTile
               (Math_max (lit 50) (Tile.x selectedTile - moveDistance))
               (Tile.y selectedTile))
      else if String.eqb key "ArrowRight" then
        ret (moveSelected app selectedTile
               (Math_min (lit 550) (Tile.x selectedTile + moveDistance))
               (Tile.y selectedTile))
      else if String.eqb key "ArrowUp" then
        ret (moveSelected app selectedTile
               (Tile.x selectedTile)
               (Math_max (lit 50) (Tile.y selectedTile - moveDistance)))
      else if String.eqb key "ArrowDown" then
        ret (moveSelected app selectedTile
               (Tile.x selectedTile)
               (Math_min (lit 550) (Tile.y selectedTile + moveDistance)))
      else if String.eqb key "r" || String.eqb key "R" then
        ret (rotateTile (Tile.id selectedTile) app)
      else if String.eqb key "d" || String.eqb key "D" then
        duplicateTile (Tile.id selectedTile) app
      else if String.eqb key "Delete" || String.eqb key "Backspace" then
        ret (deleteTile (Tile.id selectedTile) app)
      else ret app
  end.

(** [handleMouseDown] and [handleTouchStart], for the client position of the
    pointer: nothing happens without a canvas rectangle. *)
Definition handleMouseDown (clientX clientY : N) (rect : option (Rect.t N))
           (tile : Tile.t N) (app : App.t N) : App.t N :=
  match rect with
  | None => app
  | Some rect =>
      let mouseX := clientX - Rect.left rect in
      let mouseY := clientY - Rect.top rect in
      {| App.tiles := App.tiles app;
         App.selectedTile := Some tile;
         App.dragState :=
           {| DragState.isDragging := true;
              DragState.tileId := Some (Tile.id tile);
              DragState.offsetX := mouseX - Tile.x tile;
              DragState.offsetY := mouseY - Tile.y tile |};
         App.selectedColor := App.selectedColor app;
         App.symmetryMode := App.symmetryMode app;
         App.showSuggestions := App.showSuggestions app |}
  end.

(** [Math.max(50, Math.min(550, v))]. *)
Definition bounded (v : N) : N := Math_max (lit 50) (Math_min (lit 550) v).

(** [tile.originalId === dragState.tileId && tile.isSymmetryMirror]. *)
Definition isMirrorOf (tileId : string) (tile : Tile.t N) : bool :=
  match Tile.originalId tile, Tile.isSymmetryMirror tile with
  | Some original, Some true => String.eqb original tileId
  | _, _ => false
  end.

(** The mirror branch of the update of [performMove]: the mirrors of the
    tile taken as an original at the new position are computed, and the one
    found at the place where the tile already is replaces it. *)
Definition moveMirror (symmetryMode : SymmetryMode) (boundedX boundedY : N)
           (tile : Tile.t N) : Gen (Tile.t N) :=
  let originalTile :=
    {| Tile.id := Tile.id tile;
       Tile.shape := Tile.shape tile;
       Tile.x := boundedX;
       Tile.y := boundedY;
       Tile.rotation := Tile.rotation tile;
       Tile.color := Tile.color tile;
       Tile.isSymmetryMirror := Some false;
       Tile.originalId := None |} in
  mirrors <- createSymmetryMirrors symmetryMode originalTile ;;
  ret (match find (fun m => strictEq (Tile.x m) (Tile.x tile) &&
                            strictEq (Tile.y m) (Tile.y tile)) mirrors with
       | Some m =>
           {| Tile.id := Tile.id tile;
              Tile.shape := Tile.shape m;
              Tile.x := Tile.x m;
              Tile.y := Tile.y m;
              Tile.rotation := Tile.rotation m;
              Tile.color := Tile.color m;
              Tile.isSymmetryMirror := Some true;
              Tile.originalId := Tile.originalId tile |}
       | None => tile
       end).

(** The function mapped over the tiles by [performMove]. *)
Definition moveTile (symmetryMode : SymmetryMode) (tileId : string)
           (boundedX boundedY : N) (tile : Tile.t N) : Gen (Tile.t N) :=
  if hasId tileId tile then ret (withPosition tile boundedX boundedY)
  else if isMirrorOf tileId tile then moveMirror symmetryMode boundedX boundedY tile
  else ret tile.

(** The callback of [performMove], for the client position of the mouse or
    of the first touch ([None]: a touch event without touches). *)
Definition performMove (pointer : option (N * N)) (rect : option (Rect.t N))
           (app : App.t N) : Gen (App.t N) :=
  match rect, pointer with
  | Some rect, Some (clientX, clientY) =>
      let dragState := App.dragState app in
      if negb (DragState.isDragging dragState) then ret app
      else
        match truthyId (DragState.tileId dragState) with
        | None => ret app
        | Some tileId =>
            let mouseX := clientX - Rect.left rect in
            let mouseY := clientY - Rect.top rect in
            let newX := mouseX - DragState.offsetX dragState in
            let newY := mouseY - DragState.offsetY dragState in
            let boundedX := bounded newX in
            let boundedY := bounded newY in
            tiles <- mapGen (moveTile (App.symmetryMode app) tileId boundedX boundedY)
                            (App.tiles app) ;;
            ret (setTilesAndSelected app tiles
                   (match App.selectedTile app with
                    | Some prev =>
                        if hasId tileId prev
                        then Some (withPosition prev boundedX boundedY)
                        else Some prev
                    | None => None
                    end))
        end
  | _, _ => ret app
  end.

(** The distance from the dragged tile to a snap position, in
    [handleTouchEnd]. *)
Definition snapDistance (draggedTile : Tile.t N) (snapPosition : Point.t N) : N :=
  Math_sqrt (Math_pow2 (Tile.x draggedTile - Point.x snapPosition) +
             Math_pow2 (Tile.y draggedTile - Point.y snapPosition)).

(** [distance < closestDistance], where [None] is the initial [Infinity]. *)
Definition closerThan (distance : N) (closestDistance : option N) : bool :=
  match closestDistance with
  | None => belowInfinity distance
  | Some closest => distance <? closest
  end.

(** One pass through the loop of [handleTouchEnd] over the other tiles; the
    state is [bestSnap] with [closestDistance]. *)
Definition considerTile (draggedTile : Tile.t N)
           (state : option (Tile.t N * Point.t N) * option N)
           (otherTile : Tile.t N) : option (Tile.t N * Point.t N) * option N :=
  let snapResult := canTilesSnap draggedTile otherTile in
  match canSnap snapResult, snapPosition snapResult with
  | true, Some position =>
      let distance := snapDistance draggedTile position in
      if closerThan distance (snd state)
      then (Some (otherTile, position), Some distance)
      else state
  | _, _ => state
  end.

(** The snap that [handleTouchEnd] retains for the dragged tile. *)
Definition bestSnapAmong (draggedTile : Tile.t N) (otherTiles : list (Tile.t N))
  : option (Tile.t N * Point.t N) :=
  fst (fold_left (considerTile draggedTile) otherTiles (None, None)).

(** The cleared drag state. *)
Definition noDrag : DragState.t N :=
  {| DragState.isDragging := false;
     DragState.tileId := None;
     DragState.offsetX := lit 0;
     DragState.offsetY := lit 0 |}.

(** What [handleTouchEnd] does to the tiles and the selection: the snap, if
    there is one. *)
Definition snapDragged (app : App.t N) : App.t N :=
  let dragState := App.dragState app in
  if DragState.isDragging dragState then
    match truthyId (DragState.tileId dragState) with
    | None => app
    | Some tileId =>
        match find (hasId tileId) (App.tiles app) with
        | None => app
        | Some draggedTile =>
            let otherTiles :=
              filter (fun t => negb (hasId tileId t)) (App.tiles app) in
            match bestSnapAmong draggedTile otherTiles with
            | None => app
            | Some (_, snapPosition) =>
                let constrainedX := bounded (Point.x snapPosition) in
                let constrainedY := bounded (Point.y snapPosition) in
                setTilesAndSelected app
                  (map (fun tile =>
                          if hasId tileId tile
                          then withPosition tile constrainedX constrainedY
                          else tile)
                       (App.tiles app))
                  (match App.selectedTile app with
                   | Some prev =>
                       if hasId tileId prev
                       then Some (withPosition prev constrainedX constrainedY)
                       else Some prev
                   | None => None
                   end)
            end
        end
    end
  else app.

(** [handleTouchEnd], which [handleMouseUp] calls: the snap, then the drag
    state is cleared in every case. *)
Definition handleTouchEnd (app : App.t N) : App.t N :=
  setDragState (snapDragged app) noDrag.

(** [edges.filter((_, index) => index % 2 === 0)]. *)
Definition evenIndexed {A : Type} (l : list A) : list A :=
  map snd (filter (fun p => Nat.eqb (fst p mod 2) 0)
                  (combine (seq 0 (List.length l)) l)).

(** The chain of tests on [normalizedAngle]. *)
Definition compatibleShapesAt (normalizedAngle : N) : list ShapeType :=
  if (Math_abs normalizedAngle <? lit 15) ||
     (Math_abs (normalizedAngle - lit 180) <? lit 15)
  then [square; hexagon]
  else if Math_abs (normalizedAngle - lit 90) <? lit 15
  then [square; hexagon]
  else if (Math_abs (normalizedAngle - lit 60) <? lit 15) ||
          (Math_abs (normalizedAngle - lit 120) <? lit 15)
  then [triangle; hexagon]
  else [triangle].

(** The [switch] that sets [centerToEdgeDistance]. *)
Definition centerToEdgeDistance (shape : ShapeType) : N :=
  match shape with
  | triangle => lit 20
  | square => lit 25
  | hexagon => dec1 433
  | diamond => lit 30
  end.

(** [existingTile => distance < 50] of the occupancy test. *)
Definition tooClose (suggestionX suggestionY : N) (existingTile : Tile.t N) : bool :=
  Math_sqrt (Math_pow2 (Tile.x existingTile - suggestionX) +
             Math_pow2 (Tile.y existingTile - suggestionY)) <? lit 50.

(** [inBounds]. *)
Definition inBounds (suggestionX suggestionY : N) : bool :=
  (suggestionX >? lit 80) && (suggestionX <? lit 520) &&
  (suggestionY >? lit 80) && (suggestionY <? lit 520).

(** The body of [selectedEdges.forEach]: the suggestion pushed for an edge,
    if any. *)
Definition suggestionAt (tiles : list (Tile.t N)) (edge : Edge.t N)
           (edgeIndex : nat) : list (SuggestionPoint.t N) :=
  let dx := Point.x (Edge.end_ edge) - Point.x (Edge.start edge) in
  let dy := Point.y (Edge.end_ edge) - Point.y (Edge.start edge) in
  let angle := Math_atan2 dy dx * lit 180 / Math_PI in
  let normalizedAngle := rem (rem angle (lit 180) + lit 180) (lit 180) in
  let compatibleShapes := compatibleShapesAt normalizedAngle in
  let shape :=
    nth (edgeIndex mod List.length compatibleShapes) compatibleShapes triangle in
  let suggestionX :=
    Point.x (Edge.midpoint edge) + Point.x (Edge.normal edge) * centerToEdgeDistance shape in
  let suggestionY :=
    Point.y (Edge.midpoint edge) + Point.y (Edge.normal edge) * centerToEdgeDistance shape in
  if inBounds suggestionX suggestionY then
    if negb (existsb (tooClose suggestionX suggestionY) tiles)
    then [ {| SuggestionPoint.x := suggestionX;
              SuggestionPoint.y := suggestionY;
              SuggestionPoint.shape := shape;
              SuggestionPoint.rotation := lit 0 |} ]
    else []
  else [].

(** The body of [tiles.forEach]: nothing for a mirror, else the suggestions
    of every other edge. *)
Definition suggestionsFrom (tiles : list (Tile.t N)) (tile : Tile.t N)
  : list (SuggestionPoint.t N) :=
  match Tile.isSymmetryMirror tile with
  | Some true => []
  | _ =>
      let edges := getShapeEdges tile in
      let selectedEdges := evenIndexed edges in
      flat_map (fun p => suggestionAt tiles (snd p) (fst p))
               (combine (seq 0 (List.length selectedEdges)) selectedEdges)
  end.

(** The memoised value [suggestions]. *)
Definition suggestions (app : App.t N) : list (SuggestionPoint.t N) :=
  if negb (App.showSuggestions app) || Nat.eqb (List.length (App.tiles app)) 0
  then []
  else flat_map (suggestionsFrom (App.tiles app)) (App.tiles app).

(** The body of [suggestions.forEach] in [fillPattern]: the new tile, then
    its mirrors. *)
Definition tilesOfSuggestion (app : App.t N) (suggestion : SuggestionPoint.t N)
  : Gen (list (Tile.t N)) :=
  id <- generateId ;;
  let newTile :=
    {| Tile.id := id;
       Tile.shape := SuggestionPoint.shape suggestion;
       Tile.x := SuggestionPoint.x suggestion;
       Tile.y := SuggestionPoint.y suggestion;
       Tile.rotation := SuggestionPoint.rotation suggestion;
       Tile.color := App.selectedColor app;
       Tile.isSymmetryMirror := None;
       Tile.originalId := None |} in
  mirrors <- createSymmetryMirrors (App.symmetryMode app) newTile ;;
  ret (newTile :: mirrors).

(** [fillPattern]. *)
Definition fillPattern (app : App.t N) : Gen (App.t N) :=
  newTiles <- mapGen (tilesOfSuggestion app) (suggestions app) ;;
  ret {| App.tiles := App.tiles app ++ List.concat newTiles;
         App.selectedTile := App.selectedTile app;
         App.dragState := App.dragState app;
         App.selectedColor := App.selectedColor app;
         App.symmetryMode := App.symmetryMode app;
         App.showSuggestions := false |}.

(** [clearAll]. *)
Definition clearAll (app : App.t N) : App.t N :=
  setTilesAndSelected app [] None.

End Handlers.

(** ** The component: its events *)

(** The events that the markup wires to the handlers.  A tile element is
    named by its index in [tiles], the list the markup maps over.  Each
    handler is taken to run on the current state: the component is rendered
    between two events, so that the closures of the handlers are up to
    date. *)
Inductive Event (N : Type) : Type :=
| ClickShape (shapeType : ShapeType)
| ClickColor (color : string)
| ClickSymmetry (mode : SymmetryMode)
| ClickSuggestions
| ClickFill
| ClickClear
| ClickRotate
| ClickDuplicate
| ClickDelete
| KeyDown (key : string) (shiftKey : bool)
| FocusTile (index : nat)
| PressTile (index : nat) (clientX clientY : N) (rect : option (Rect.t N))
| Move (pointer : option (N * N)) (rect : option (Rect.t N))
| Release.

Arguments ClickShape {N}.
Arguments ClickColor {N}.
Arguments ClickSymmetry {N}.
Arguments ClickSuggestions {N}.
Arguments ClickFill {N}.
Arguments ClickClear {N}.
Arguments ClickRotate {N}.
Arguments ClickDuplicate {N}.
Arguments ClickDelete {N}.
Arguments KeyDown {N}.
Arguments FocusTile {N}.
Arguments PressTile {N}.
Arguments Move {N}.
Arguments Release {N}.

Section Component.
Context {N : Type} `{Number N} `{Trig N} `{Operators N} `{Atan2 N}.

(** The state after the [useState] initialisers. *)
Definition initialApp : App.t N :=
  {| App.tiles := [];
     App.selectedTile := None;
     App.dragState := noDrag;
     App.selectedColor := "#3b82f6";
     App.symmetryMode := none;
     App.showSuggestions := false |}.

(** A button of the tile toolbar, which is rendered for a selected tile
    only. *)
Definition onSelected (handler : string -> App.t N -> Gen (App.t N))
           (app : App.t N) : Gen (App.t N) :=
  match App.selectedTile app with
  | Some selectedTile => handler (Tile.id selectedTile) app
  | None => ret app
  end.

(** A handler of a tile element: there is none past the end of [tiles]. *)
Definition onTile (index : nat) (handler : Tile.t N -> App.t N -> App.t N)
           (app : App.t N) : App.t N :=
  match nth_error (App.tiles app) index with
  | Some tile => handler tile app
  | None => app
  end.

(** [setSelectedTile(tile)]. *)
Definition selectTile (tile : Tile.t N) (app : App.t N) : App.t N :=
  setTilesAndSelected app (App.tiles app) (Some tile).

(** The handler of each event. *)
Definition handle (event : Event N) (app : App.t N) : Gen (App.t N) :=
  match event with
  | ClickShape shapeType => addShape shapeType app
  | ClickColor color =>
      ret {| App.tiles := App.tiles app;
             App.selectedTile := App.selectedTile app;
             App.dragState := App.dragState app;
             App.selectedColor := color;
             App.symmetryMode := App.symmetryMode app;
             App.showSuggestions := App.showSuggestions app |}
  | ClickSymmetry mode =>
      ret {| App.tiles := App.tiles app;
             App.selectedTile := App.selectedTile app;
             App.dragState := App.dragState app;
             App.selectedColor := App.selectedColor app;
             App.symmetryMode := mode;
             App.showSuggestions := App.showSuggestions app |}
  | ClickSuggestions =>
      ret {| App.tiles := App.tiles app;
             App.selectedTile := App.selectedTile app;
             App.dragState := App.dragState app;
             App.selectedColor := App.selectedColor app;
             App.symmetryMode := App.symmetryMode app;
             App.showSuggestions := negb (App.showSuggestions app) |}
  | ClickFill =>
      if App.showSuggestions app &&
         negb (Nat.eqb (List.length (suggestions app)) 0)
      then fillPattern app
      else ret app
  | ClickClear => ret (clearAll app)
  | ClickRotate => onSelected (fun id app => ret (rotateTile id app)) app
  | ClickDuplicate => onSelected duplicateTile app
  | ClickDelete => onSelected (fun id app => ret (deleteTile id app)) app
  | KeyDown key shiftKey => handleKeyDown key shiftKey app
  | FocusTile index => ret (onTile index selectTile app)
  | PressTile index clientX clientY rect =>
      ret (onTile index (handleMouseDown clientX clientY rect) app)
  | Move pointer rect => performMove pointer rect app
  | Release => ret (handleTouchEnd app)
  end.

(** The state after a sequence of events. *)
Fixpoint run (events : list (Event N)) (app : App.t N) : Gen (App.t N) :=
  match events with
  | [] => ret app
  | event :: events' => app' <- handle event app ;; run events' app'
  end.

End Component.

(** An identifier source whose draws are pairwise different: the letters
    from [a] on. *)
Definition letters : IdSource :=
  {| draws := fun n => String (Ascii.ascii_of_nat (97 + n)) EmptyString;
     drawn := 0 |}.

(** The handlers in exact arithmetic. *)

(** The integer part toward zero. *)
Definition Rtrunc (r : R) : Z :=
  if Rle_dec 0 r then Int_part r else (- Int_part (- r))%Z.

(** [a % b]: the remainder has the sign of [a]. *)
Definition Rrem (a b : R) : R := (a - b * IZR (Rtrunc (a / b)))%R.

Definition Reqb (a b : R) : bool := if Req_dec_T a b then true else false.

(** [Math.atan2(y, x)], by quadrant. *)
Definition Ratan2 (y x : R) : R :=
  if Rlt_dec 0 x then atan (y / x)
  else if Rlt_dec x 0 then
    (if Rle_dec 0 y then atan (y / x) + PI else atan (y / x) - PI)%R
  else if Rlt_dec 0 y then (PI / 2)%R
  else if Rlt_dec y 0 then (- PI / 2)%R
  else 0%R.

#[export] Instance R_Operators : Operators R := {
  rem := Rrem;
  strictEq := Reqb;
  Math_max := Rmax;
  Math_min := Rmin;
  belowInfinity := fun _ => true
}.

#[export] Instance R_Atan2 : Atan2 R := {
  Math_atan2 := Ratan2
}.

(** The pair [(e1, e2)] wins the search over [pairs]: it is compatible, every
    compatible pair visited before it is strictly farther apart, and no
    compatible pair visited after it is closer. *)
Definition winsSearch (pairs : list (Edge.t R * Edge.t R)) (e1 e2 : Edge.t R)
  : Prop :=
  areEdgesCompatible e1 e2 = true /\
  exists before after,
    pairs = before ++ (e1, e2) :: after /\
    (forall p, In p before -> areEdgesCompatible (fst p) (snd p) = true ->
               (midpointDistance e1 e2 < midpointDistance (fst p) (snd p))%R) /\
    (forall p, In p after -> areEdgesCompatible (fst p) (snd p) = true ->
               (midpointDistance e1 e2 <= midpointDistance (fst p) (snd p))%R).

(** What the loop of [canTilesSnap] holds after the pairs [seen]. *)
Definition searchState (seen : list (Edge.t R * Edge.t R))
           (bestSnap : option (BestSnap.t R)) : Prop :=
  match bestSnap with
  | None => forall p, In p seen -> areEdgesCompatible (fst p) (snd p) = false
  | Some best =>
      BestSnap.distance best =
        midpointDistance (BestSnap.edge1 best) (BestSnap.edge2 best) /\
      winsSearch seen (BestSnap.edge1 best) (BestSnap.edge2 best)
  end.

(** A square at the canvas center with its horizontal mirror, the square
    being dragged by its center. *)
Definition mirroredPair : App.t R :=
  {| App.tiles := [ tileAt square 300 300 0;
                    mirrorTile (tileAt square 300 300 0) "m" 300%R 300%R ];
     App.selectedTile := Some (tileAt square 300 300 0);
     App.dragState :=
       {| DragState.isDragging := true;
          DragState.tileId := Some "t"%string;
          DragState.offsetX := 0%R;
          DragState.offsetY := 0%R |};
     App.selectedColor := "#3b82f6";
     App.symmetryMode := horizontal;
     App.showSuggestions := false |}.

(** The rotations that the handlers produce. *)
Definition validRotation (rotation : R) : Prop :=
  In rotation [ 0; 45; 90; 135; 180; 225; 270; 315 ]%R.

(** A tile is a primary without marks, or a mirror with both marks. *)
Definition validMarks (tile : Tile.t R) : Prop :=
  (Tile.isSymmetryMirror tile = None /\ Tile.originalId tile = None) \/
  (Tile.isSymmetryMirror tile = Some true /\ Tile.originalId tile <> None).

Definition validTile (tile : Tile.t R) : Prop :=
  validRotation (Tile.rotation tile) /\ validMarks tile.


(** The distance between a tile and a suggestion. *)
Definition distanceTo (suggestion : SuggestionPoint.t R) (tile : Tile.t R) : R :=
  sqrt ((Tile.x tile - SuggestionPoint.x suggestion) *
        (Tile.x tile - SuggestionPoint.x suggestion) +
        (Tile.y tile - SuggestionPoint.y suggestion) *
        (Tile.y tile - SuggestionPoint.y suggestion))%R.

(** * Properties *)

Unset Implicit Arguments.

(** ** Facts that hold in every model of [number] *)

Section AnyNumber.
Context {N : Type} `{Number N}.

Lemma considerPair_fromLists edges1 edges2 bestSnap e1 e2 :
  fromLists edges1 edges2 bestSnap ->
  In e1 edges1 -> In e2 edges2 ->
  fromLists edges1 edges2 (considerPair bestSnap e1 e2).
Proof.
  intros Hb H1 H2. unfold considerPair.
  destruct (areEdgesCompatible e1 e2) eqn:Hc; [|exact Hb].
  destruct bestSnap as [best|]; simpl.
  - destruct (lt _ _); simpl; auto.
  - auto.
Qed.

Lemma inner_fromLists edges1 edges2 e1 :
  In e1 edges1 ->
  forall es bestSnap,
    incl es edges2 ->
    fromLists edges1 edges2 bestSnap ->
    fromLists edges1 edges2
      (fold_left (fun b e2 => considerPair b e1 e2) es bestSnap).
Proof.
  intros H1 es. induction es as [|e2 es IH]; intros bestSnap Hin Hb; simpl.
  - exact Hb.
  - apply IH.
    + intros e He. apply Hin. now right.
    + apply considerPair_fromLists; auto. apply Hin. now left.
Qed.

Lemma outer_fromLists edges1 edges2 :
  forall es bestSnap,
    incl es edges1 ->
    fromLists edges1 edges2 bestSnap ->
    fromLists edges1 edges2
      (fold_left
         (fun b e1 => fold_left (fun b e2 => considerPair b e1 e2) edges2 b)
         es bestSnap).
Proof.
  induction es as [|e1 es IH]; intros bestSnap Hin Hb; simpl.
  - exact Hb.
  - apply IH.
    + intros e He. apply Hin. now right.
    + apply inner_fromLists; auto.
      * apply Hin. now left.
      * apply incl_refl.
Qed.

(** The pair the search returns comes from the two lists and passed the
    oracle. *)
Lemma findBestSnap_sound edges1 edges2 best :
  findBestSnap edges1 edges2 = Some best ->
  In (BestSnap.edge1 best) edges1 /\
  In (BestSnap.edge2 best) edges2 /\
  areEdgesCompatible (BestSnap.edge1 best) (BestSnap.edge2 best) = true.
Proof.
  intros Hf.
  pose proof (outer_fromLists edges1 edges2 edges1 None (incl_refl _) I) as Hgood.
  unfold findBestSnap in Hf. rewrite Hf in Hgood. exact Hgood.
Qed.

(** With no compatible pair the inner loop leaves [bestSnap] as it was. *)
Lemma inner_unchanged e1 (es : list (Edge.t N)) :
  (forall e2, In e2 es -> areEdgesCompatible e1 e2 = false) ->
  forall bestSnap,
    fold_left (fun b e2 => considerPair b e1 e2) es bestSnap = bestSnap.
Proof.
  induction es as [|e2 es IH]; intros Hno bestSnap; simpl.
  - reflexivity.
  - unfold considerPair at 2. rewrite (Hno e2) by now left.
    apply IH. intros e He. apply Hno. now right.
Qed.

Lemma findBestSnap_none edges1 edges2 :
  (forall e1 e2, In e1 edges1 -> In e2 edges2 ->
                 areEdgesCompatible e1 e2 = false) ->
  findBestSnap edges1 edges2 = None.
Proof.
  unfold findBestSnap. generalize (@None (BestSnap.t N)).
  induction edges1 as [|e1 es IH]; intros b Hno; simpl.
  - reflexivity.
  - rewrite inner_unchanged.
    + apply IH. intros e1' e2 H1 H2. apply Hno; auto. now right.
    + intros e2 H2. apply Hno; auto. now left.
Qed.

Lemma considerPair_skip (bestSnap : option (BestSnap.t N)) (e1 e2 : Edge.t N) :
  areEdgesCompatible e1 e2 = false -> considerPair bestSnap e1 e2 = bestSnap.
Proof. intros Hc. unfold considerPair. rewrite Hc. reflexivity. Qed.

Lemma considerPair_first (e1 e2 : Edge.t N) :
  areEdgesCompatible e1 e2 = true ->
  considerPair None e1 e2 = Some (BestSnap.mk e1 e2 (midpointDistance e1 e2)).
Proof. intros Hc. unfold considerPair. rewrite Hc. reflexivity. Qed.

(** One edge per vertex, whatever the arithmetic. *)
Lemma getShapeEdgesWith_length cos sin (tile : Tile.t N) :
  List.length (getShapeEdgesWith cos sin tile) = vertexCount (Tile.shape tile).
Proof.
  unfold getShapeEdgesWith, edgesOfVertices, shapeVertices.
  rewrite length_map, length_seq.
  destruct (Tile.shape tile); reflexivity.
Qed.

(** The result is the image of all the sides: the loop filters nothing. *)
Lemma getShapeEdgesWith_sides cos sin (tile : Tile.t N) :
  getShapeEdgesWith cos sin tile =
  map (edgeOfSide cos sin tile) (localSides (Tile.shape tile)).
Proof.
  unfold getShapeEdgesWith, edgesOfVertices, shapeVertices, localSides.
  destruct (Tile.shape tile); reflexivity.
Qed.

(** The edges depend on the tile through its shape and center only. *)
Lemma getShapeEdgesWith_same cos sin (tile tile' : Tile.t N) :
  Tile.shape tile' = Tile.shape tile ->
  Tile.x tile' = Tile.x tile ->
  Tile.y tile' = Tile.y tile ->
  getShapeEdgesWith cos sin tile' = getShapeEdgesWith cos sin tile.
Proof.
  intros Hs Hx Hy. rewrite !getShapeEdgesWith_sides, Hs.
  apply map_ext. intros side.
  unfold edgeOfSide, edgeBetween, transform. simpl. rewrite Hx, Hy. reflexivity.
Qed.

Lemma snapOfEdges_shape (tile1 : Tile.t N) (edges1 edges2 : list (Edge.t N)) :
  let r := snapOfEdges tile1 edges1 edges2 in
  (canSnap r = false /\ snapPosition r = None) \/
  (canSnap r = true /\ exists p, snapPosition r = Some p).
Proof.
  unfold snapOfEdges. destruct (findBestSnap edges1 edges2) as [best|]; simpl.
  - right. split; [reflexivity | eexists; reflexivity].
  - left. split; reflexivity.
Qed.

Lemma mirrorTile_keepsAppearance (originalTile : Tile.t N) id x y :
  keepsAppearance originalTile (mirrorTile originalTile id x y).
Proof. unfold keepsAppearance. simpl. repeat split. Qed.

(** The oracle is symmetric wherever the arithmetic is. *)
Lemma areEdgesCompatible_swap (a b : Edge.t N) :
  SymmetricArithmetic ->
  areEdgesCompatible a b = areEdgesCompatible b a.
Proof.
  intros [Hmul Habs Hsq]. unfold areEdgesCompatible.
  rewrite (Habs (Edge.length a) (Edge.length b)).
  replace (midpointDistance a b) with (midpointDistance b a)
    by (unfold midpointDistance;
        rewrite (Hsq (Point.x (Edge.midpoint a)) (Point.x (Edge.midpoint b))),
                (Hsq (Point.y (Edge.midpoint a)) (Point.y (Edge.midpoint b)));
        reflexivity).
  replace (normalDot a b) with (normalDot b a)
    by (unfold normalDot;
        rewrite (Hmul (Point.x (Edge.normal a)) (Point.x (Edge.normal b))),
                (Hmul (Point.y (Edge.normal a)) (Point.y (Edge.normal b)));
        reflexivity).
  replace (edgeDotProduct a b) with (edgeDotProduct b a)
    by (unfold edgeDotProduct; cbv zeta;
        match goal with
        | |- Math_abs (add (mul ?p ?q) (mul ?r ?s)) = _ =>
            rewrite (Hmul p q), (Hmul r s)
        end; reflexivity).
  reflexivity.
Qed.

End AnyNumber.

(** ** Exact arithmetic: comparisons and gates *)

Lemma Rgtb_true (a b : R) : Rgtb a b = true <-> (a > b)%R.
Proof. unfold Rgtb; destruct (Rgt_dec a b); split; intros; auto; discriminate. Qed.

Lemma Rgtb_false (a b : R) : Rgtb a b = false <-> (a <= b)%R.
Proof.
  unfold Rgtb; destruct (Rgt_dec a b); split; intros; auto; try discriminate; lra.
Qed.

Lemma Rltb_true (a b : R) : Rltb a b = true <-> (a < b)%R.
Proof. unfold Rltb; destruct (Rlt_dec a b); split; intros; auto; discriminate. Qed.

Lemma Rltb_false (a b : R) : Rltb a b = false <-> (b <= a)%R.
Proof.
  unfold Rltb; destruct (Rlt_dec a b); split; intros; auto; try discriminate; lra.
Qed.

(** Unfolds the interface at the reals, leaving plain real arithmetic. *)
Ltac real_ops :=
  cbn [lit dec1 add sub mul div neg Math_sqrt Math_abs gt lt R_Number
       Math_cos Math_sin Math_PI R_Trig] in *.

(** Reduces the projections of records that are given by their fields. *)
Ltac fields :=
  cbn [Edge.start Edge.end_ Edge.length Edge.midpoint Edge.normal
       Point.x Point.y Tile.x Tile.y Tile.shape Tile.rotation Tile.id
       Tile.color Tile.isSymmetryMirror Tile.originalId
       BestSnap.edge1 BestSnap.edge2 BestSnap.distance
       canSnap snapPosition] in *.

Section RealGates.
Local Open Scope R_scope.

Lemma sqrt_above (a b : R) : 0 <= b -> b * b < a -> sqrt a > b.
Proof.
  intros Hb Hab. rewrite <- (sqrt_square b) by exact Hb.
  apply sqrt_lt_1_alt. nra.
Qed.

Lemma sqrt_below (a b : R) : 0 <= b -> a <= b * b -> sqrt a <= b.
Proof.
  intros Hb Hab. rewrite <- (sqrt_square b) by exact Hb.
  destruct (Rle_dec 0 a) as [Ha|Ha].
  - apply sqrt_le_1_alt. exact Hab.
  - rewrite sqrt_neg_0 by lra. apply sqrt_pos.
Qed.


Lemma point_eq (a b c d : R) :
  a = c -> b = d -> Point.mk a b = Point.mk c d.
Proof. intros -> ->. reflexivity. Qed.

Lemma edge_eq (s e m n s' e' m' n' : Point.t R) (l l' : R) :
  s = s' -> e = e' -> l = l' -> m = m' -> n = n' ->
  Edge.mk s e l m n = Edge.mk s' e' l' m' n'.
Proof. intros -> -> -> -> ->. reflexivity. Qed.

(** [areEdgesCompatible] answers [true] exactly when the four gates pass. *)
Lemma areEdgesCompatible_true (a b : Edge.t R) :
  areEdgesCompatible a b = true <->
  Rabs (Edge.length a - Edge.length b) <= 2 /\
  midpointDistance a b <= 40 /\
  normalDot a b <= - (9 / 10) /\
  9 / 10 <= edgeDotProduct a b.
Proof.
  unfold areEdgesCompatible. real_ops.
  destruct (Rgtb (Rabs _) 2) eqn:E1;
    [apply Rgtb_true in E1; split; [discriminate | lra] | apply Rgtb_false in E1].
  destruct (Rgtb (midpointDistance a b) 40) eqn:E2;
    [apply Rgtb_true in E2; split; [discriminate | lra] | apply Rgtb_false in E2].
  destruct (Rgtb (normalDot a b) _) eqn:E3;
    [apply Rgtb_true in E3; split; [discriminate | lra] | apply Rgtb_false in E3].
  destruct (Rltb (edgeDotProduct a b) _) eqn:E4;
    [apply Rltb_true in E4; split; [discriminate | lra] | apply Rltb_false in E4].
  split; [intros _; lra | reflexivity].
Qed.

(** It answers [false] as soon as one gate fails. *)
Lemma areEdgesCompatible_false (a b : Edge.t R) :
  Rabs (Edge.length a - Edge.length b) > 2 \/
  midpointDistance a b > 40 \/
  normalDot a b > - (9 / 10) \/
  edgeDotProduct a b < 9 / 10 ->
  areEdgesCompatible a b = false.
Proof.
  intros Hg. destruct (areEdgesCompatible a b) eqn:E; [|reflexivity].
  apply areEdgesCompatible_true in E. lra.
Qed.

(** The value of the fourth gate when the two direction lengths are known. *)
Lemma edgeDotProduct_value (a b : Edge.t R) (la lb : R) :
  let ax := Point.x (Edge.end_ a) - Point.x (Edge.start a) in
  let ay := Point.y (Edge.end_ a) - Point.y (Edge.start a) in
  let bx := Point.x (Edge.end_ b) - Point.x (Edge.start b) in
  let by_ := Point.y (Edge.end_ b) - Point.y (Edge.start b) in
  0 < la -> 0 < lb ->
  ax * ax + ay * ay = la * la ->
  bx * bx + by_ * by_ = lb * lb ->
  edgeDotProduct a b = Rabs ((ax * bx + ay * by_) / (la * lb)).
Proof.
  intros ax ay bx by_ Ha Hb Hla Hlb. unfold edgeDotProduct. real_ops.
  fold ax ay bx by_. rewrite Hla, Hlb, !sqrt_square by lra.
  f_equal. field. lra.
Qed.

(** An edge whose raw normal does not point toward the center keeps it. *)
Lemma edgeBetween_noflip (tile : Tile.t R) (s e : Point.t R) (l : R) :
  0 < l ->
  (Point.x e - Point.x s) * (Point.x e - Point.x s) +
  (Point.y e - Point.y s) * (Point.y e - Point.y s) = l * l ->
  (Point.y e - Point.y s) * (Tile.x tile - (Point.x s + Point.x e) / 2) +
  - (Point.x e - Point.x s) * (Tile.y tile - (Point.y s + Point.y e) / 2) <= 0 ->
  edgeBetween tile s e =
  Edge.mk s e l
    {| Point.x := (Point.x s + Point.x e) / 2;
       Point.y := (Point.y s + Point.y e) / 2 |}
    {| Point.x := (Point.y e - Point.y s) / l;
       Point.y := - (Point.x e - Point.x s) / l |}.
Proof.
  intros Hl Hsq Hdot. unfold edgeBetween. real_ops. fields.
  rewrite Hsq, (sqrt_square l) by lra.
  match goal with |- context [Rgtb ?u 0] => assert (Hu : Rgtb u 0 = false) end.
  { apply Rgtb_false.
    match goal with |- ?u <= 0 =>
      replace u with
        (((Point.y e - Point.y s) * (Tile.x tile - (Point.x s + Point.x e) / 2) +
          - (Point.x e - Point.x s) * (Tile.y tile - (Point.y s + Point.y e) / 2)) / l)
        by (field; lra)
    end.
    assert (Hi : 0 < / l) by (apply Rinv_0_lt_compat; exact Hl).
    unfold Rdiv. nra. }
  rewrite Hu. reflexivity.
Qed.


Lemma real_arithmetic_symmetric : @SymmetricArithmetic R R_Number.
Proof.
  split; intros a b; unfold Math_pow2; real_ops.
  - ring.
  - apply Rabs_minus_sym.
  - ring.
Qed.

End RealGates.

(** ** Exact arithmetic: the sides of a placed tile *)

Section RealSides.
Local Open Scope R_scope.

Variables (tile : Tile.t R) (c s : R).
Hypothesis unit_cs : c * c + s * s = 1.

(** The edge of a clockwise side, field by field: its length is the local
    length, its normal the rotated local normal, never flipped. *)
Lemma sideEdge_value px py qx qy :
  0 < sideSquare px py qx qy ->
  0 <= sideTurn px py qx qy ->
  sideEdge tile c s px py qx qy =
  Edge.mk (transform c s tile px py) (transform c s tile qx qy)
    (sqrt (sideSquare px py qx qy))
    {| Point.x := Tile.x tile + (((px + qx) / 2) * c - ((py + qy) / 2) * s);
       Point.y := Tile.y tile + (((px + qx) / 2) * s + ((py + qy) / 2) * c) |}
    {| Point.x := ((qx - px) * s + (qy - py) * c) / sqrt (sideSquare px py qx qy);
       Point.y := - ((qx - px) * c - (qy - py) * s) / sqrt (sideSquare px py qx qy) |}.
Proof.
  intros Hpos Hturn. unfold sideEdge.
  rewrite (edgeBetween_noflip tile _ _ (sqrt (sideSquare px py qx qy))).
  - unfold transform. real_ops. fields.
    f_equal; f_equal; try (field; apply Rgt_not_eq, sqrt_lt_R0, Hpos); field.
  - apply sqrt_lt_R0, Hpos.
  - rewrite sqrt_sqrt by lra.
    unfold transform, sideSquare. real_ops. fields.
    transitivity ((c * c + s * s) * ((qx - px) * (qx - px) + (qy - py) * (qy - py)));
      [ring | rewrite unit_cs; ring].
  - unfold transform. real_ops. fields.
    unfold sideTurn in Hturn.
    match goal with |- ?u <= 0 =>
      replace u with (- ((c * c + s * s) *
        ((qy - py) * ((px + qx) / 2) - (qx - px) * ((py + qy) / 2)))) by field
    end.
    rewrite unit_cs. lra.
Qed.


(** Two clockwise sides of the same tile: the proximity gate or the gate on
    the normals fails under a condition on the local coordinates alone. *)
Lemma sides_fail_gate p1x p1y q1x q1y p2x p2y q2x q2y :
  0 < sideSquare p1x p1y q1x q1y ->
  0 < sideSquare p2x p2y q2x q2y ->
  0 <= sideTurn p1x p1y q1x q1y ->
  0 <= sideTurn p2x p2y q2x q2y ->
  let D := (q1x - p1x) * (q2x - p2x) + (q1y - p1y) * (q2y - p2y) in
  let mx := (p1x + q1x) / 2 - (p2x + q2x) / 2 in
  let my := (p1y + q1y) / 2 - (p2y + q2y) / 2 in
  (40 * 40 < mx * mx + my * my \/
   0 <= D \/
   100 * (D * D) < 81 * (sideSquare p1x p1y q1x q1y * sideSquare p2x p2y q2x q2y)) ->
  midpointDistance (sideEdge tile c s p1x p1y q1x q1y)
                   (sideEdge tile c s p2x p2y q2x q2y) > 40 \/
  normalDot (sideEdge tile c s p1x p1y q1x q1y)
            (sideEdge tile c s p2x p2y q2x q2y) > - (9 / 10).
Proof.
  intros H1 H2 T1 T2 D mx my Hc.
  rewrite !sideEdge_value by assumption.
  unfold midpointDistance, normalDot, Math_pow2. real_ops. fields.
  set (l1 := sqrt (sideSquare p1x p1y q1x q1y)).
  set (l2 := sqrt (sideSquare p2x p2y q2x q2y)).
  assert (Hl1 : 0 < l1) by (apply sqrt_lt_R0, H1).
  assert (Hl2 : 0 < l2) by (apply sqrt_lt_R0, H2).
  assert (Hs1 : l1 * l1 = sideSquare p1x p1y q1x q1y) by (apply sqrt_sqrt; lra).
  assert (Hs2 : l2 * l2 = sideSquare p2x p2y q2x q2y) by (apply sqrt_sqrt; lra).
  destruct Hc as [Hfar | Hn].
  - left. apply sqrt_above; [lra|].
    match goal with |- _ < ?u =>
      replace u with ((c * c + s * s) * (mx * mx + my * my))
        by (unfold mx, my; ring)
    end.
    rewrite unit_cs. lra.
  - right.
    match goal with |- ?u > _ =>
      replace u with ((c * c + s * s) * D / (l1 * l2))
        by (unfold D; field; lra)
    end.
    rewrite unit_cs, Rmult_1_l.
    assert (Hll : 0 < l1 * l2) by nra.
    assert (Hgoal : - (9 / 10) * (l1 * l2) < D).
    { destruct Hn as [Hn | Hn]; [nra|].
      rewrite <- Hs1, <- Hs2 in Hn.
      destruct (Rle_dec 0 D); [nra|].
      assert (Hsq : (10 * - D) * (10 * - D) < (9 * (l1 * l2)) * (9 * (l1 * l2)))
        by nra.
      assert (10 * - D < 9 * (l1 * l2)); [|lra].
      apply Rnot_le_lt. intros Hle.
      assert ((9 * (l1 * l2)) * (9 * (l1 * l2)) <= (10 * - D) * (10 * - D)); [|lra].
      apply Rmult_le_compat; lra. }
    unfold Rdiv.
    apply Rmult_lt_reg_r with (l1 * l2); [exact Hll|].
    rewrite Rmult_assoc, Rinv_l by lra. lra.
Qed.

End RealSides.

(** ** Exact arithmetic: the catalog *)

Section RealCatalog.
Local Open Scope R_scope.

Ltac each_side H :=
  repeat (destruct H as [H | H]; [injection H as <- <- <- <- |]);
  try contradiction.

(** Every side of the catalog has a positive length and runs clockwise. *)
Lemma localSides_clockwise (sh : ShapeType) px py qx qy :
  In ((px, py), (qx, qy)) (localSides sh) ->
  0 < sideSquare px py qx qy /\ 0 <= sideTurn px py qx qy.
Proof.
  intros Hin. unfold sideSquare, sideTurn.
  destruct sh; cbn [localSides localVertices combine tl firstn app In] in Hin;
    real_ops; each_side Hin; split; lra.
Qed.

(** Any two sides of one shape, equal or not: their midpoints are more than
    40 apart, or their directions make an angle whose cosine is above -0.9. *)
Lemma localSides_apart (sh : ShapeType) p1x p1y q1x q1y p2x p2y q2x q2y :
  In ((p1x, p1y), (q1x, q1y)) (localSides sh) ->
  In ((p2x, p2y), (q2x, q2y)) (localSides sh) ->
  let D := (q1x - p1x) * (q2x - p2x) + (q1y - p1y) * (q2y - p2y) in
  let mx := (p1x + q1x) / 2 - (p2x + q2x) / 2 in
  let my := (p1y + q1y) / 2 - (p2y + q2y) / 2 in
  40 * 40 < mx * mx + my * my \/
  0 <= D \/
  100 * (D * D) < 81 * (sideSquare p1x p1y q1x q1y * sideSquare p2x p2y q2x q2y).
Proof.
  intros H1 H2. unfold sideSquare. cbv zeta.
  destruct sh; cbn [localSides localVertices combine tl firstn app In] in H1, H2;
    real_ops; each_side H1; each_side H2;
    first [ left; lra | right; left; lra | right; right; lra ].
Qed.

Lemma unit_cos_sin (a : R) : cos a * cos a + sin a * sin a = 1.
Proof. pose proof (sin2_cos2 a) as Hu. unfold Rsqr in Hu. lra. Qed.

Lemma getShapeEdges_sides (tile : Tile.t R) :
  getShapeEdges tile =
  map (edgeOfSide (cos (Tile.rotation tile * PI / 180))
                  (sin (Tile.rotation tile * PI / 180)) tile)
      (localSides (Tile.shape tile)).
Proof. unfold getShapeEdges. real_ops. apply getShapeEdgesWith_sides. Qed.

(** The edges of a tile, each with the local side it comes from. *)
Lemma in_getShapeEdges (tile : Tile.t R) (e : Edge.t R) :
  In e (getShapeEdges tile) ->
  exists px py qx qy,
    In ((px, py), (qx, qy)) (localSides (Tile.shape tile)) /\
    e = sideEdge tile (cos (Tile.rotation tile * PI / 180))
                      (sin (Tile.rotation tile * PI / 180)) px py qx qy.
Proof.
  rewrite getShapeEdges_sides. intros Hin.
  apply in_map_iff in Hin. destruct Hin as [[[px py] [qx qy]] [<- Hin]].
  exists px, py, qx, qy. split; [exact Hin | reflexivity].
Qed.


(** Two edges of one tile always fail the second or the third gate. *)
Lemma same_tile_gate (tile : Tile.t R) (e1 e2 : Edge.t R) :
  In e1 (getShapeEdges tile) ->
  In e2 (getShapeEdges tile) ->
  midpointDistance e1 e2 > 40 \/ normalDot e1 e2 > - (9 / 10).
Proof.
  intros H1 H2.
  destruct (in_getShapeEdges _ _ H1) as [p1x [p1y [q1x [q1y [S1 ->]]]]].
  destruct (in_getShapeEdges _ _ H2) as [p2x [p2y [q2x [q2y [S2 ->]]]]].
  destruct (localSides_clockwise _ _ _ _ _ S1) as [Q1 T1].
  destruct (localSides_clockwise _ _ _ _ _ S2) as [Q2 T2].
  apply (sides_fail_gate tile _ _ (unit_cos_sin _)
           p1x p1y q1x q1y p2x p2y q2x q2y Q1 Q2 T1 T2).
  exact (localSides_apart _ _ _ _ _ _ _ _ _ S1 S2).
Qed.

Lemma same_tile_incompatible (tile : Tile.t R) (e1 e2 : Edge.t R) :
  In e1 (getShapeEdges tile) ->
  In e2 (getShapeEdges tile) ->
  areEdgesCompatible e1 e2 = false.
Proof.
  intros H1 H2. apply areEdgesCompatible_false.
  destruct (same_tile_gate tile e1 e2 H1 H2); auto.
Qed.

Lemma getShapeEdges_same (tile tile' : Tile.t R) :
  Tile.shape tile' = Tile.shape tile ->
  Tile.x tile' = Tile.x tile ->
  Tile.y tile' = Tile.y tile ->
  Tile.rotation tile' = Tile.rotation tile ->
  getShapeEdges tile' = getShapeEdges tile.
Proof.
  intros Hs Hx Hy Hr. unfold getShapeEdges. rewrite Hr.
  apply getShapeEdgesWith_same; assumption.
Qed.

Lemma same_place_no_snap (tile tile' : Tile.t R) :
  Tile.shape tile' = Tile.shape tile ->
  Tile.x tile' = Tile.x tile ->
  Tile.y tile' = Tile.y tile ->
  Tile.rotation tile' = Tile.rotation tile ->
  canTilesSnap tile tile' = {| canSnap := false; snapPosition := None |}.
Proof.
  intros Hs Hx Hy Hr. unfold canTilesSnap, snapOfEdges.
  rewrite (getShapeEdges_same tile tile' Hs Hx Hy Hr).
  rewrite findBestSnap_none; [reflexivity|].
  intros e1 e2. apply same_tile_incompatible.
Qed.

End RealCatalog.

(** ** Exact arithmetic: unrotated squares and scenario 2 *)

Section RealSquares.
Local Open Scope R_scope.

Lemma square_edges_at_rotation_0 id x0 y0 color mirror original :
  getShapeEdges (Tile.mk id square x0 y0 0 color mirror original) =
  squareEdges x0 y0.
Proof.
  rewrite getShapeEdges_sides.
  cbn [Tile.shape Tile.rotation localSides localVertices combine tl firstn app map].
  replace (0 * PI / 180) with 0 by lra. rewrite cos_0, sin_0.
  unfold edgeOfSide, squareEdges, transform. real_ops. cbn [fst snd]. fields.
  repeat (apply (f_equal2 cons);
          [ rewrite (edgeBetween_noflip _ _ _ 50) by (fields; lra); fields;
            apply edge_eq; try reflexivity; apply point_eq; lra | ]).
  reflexivity.
Qed.

(** A gate that fails on two edges given by their fields. *)
Ltac gate_fails :=
  apply areEdgesCompatible_false;
  unfold midpointDistance, normalDot, Math_pow2; real_ops; fields;
  first [ right; left; apply sqrt_above; lra | right; right; left; lra ].

(** The right edge of [A] and the left edge of [B] pass the four gates. *)
Lemma right_edge_meets_left_edge :
  areEdgesCompatible (nth 1 (squareEdges 300 300) noEdge)
                     (nth 3 (squareEdges 360 300) noEdge) = true.
Proof.
  cbn [nth squareEdges]. apply areEdgesCompatible_true.
  split; [|split; [|split]].
  - fields. apply Rabs_le. lra.
  - unfold midpointDistance, Math_pow2. real_ops. fields.
    apply sqrt_below; lra.
  - unfold normalDot. real_ops. fields. lra.
  - rewrite (edgeDotProduct_value _ _ 50 50) by (fields; lra). fields.
    unfold Rabs. destruct (Rcase_abs _); lra.
Qed.

(** The search keeps that pair, the only compatible one of the sixteen. *)
Lemma scenario2_snap :
  canTilesSnap tileA tileB =
  {| canSnap := true;
     snapPosition := Some {| Point.x := 309; Point.y := 300 |} |}.
Proof.
  unfold canTilesSnap, tileA, tileB, tileAt.
  rewrite !square_edges_at_rotation_0.
  unfold snapOfEdges, findBestSnap.
  pose proof right_edge_meets_left_edge as Hmeet.
  unfold squareEdges in *. cbn [nth] in Hmeet. cbn [fold_left].
  repeat (rewrite (considerPair_skip None) by gate_fails).
  rewrite (considerPair_first _ _ Hmeet).
  repeat (rewrite considerPair_skip by gate_fails).
  fields. real_ops. f_equal. f_equal. apply point_eq; lra.
Qed.

End RealSquares.

(** ** Exact arithmetic: where the snap position puts the moving tile *)

Section RealSnap.
Local Open Scope R_scope.


End RealSnap.

(** ** Binary64: the arithmetic behind the symmetry of the oracle *)

(** Unfolds the interface at binary64, leaving the primitive operations. *)
Ltac float_ops :=
  cbn [lit dec1 add sub mul div neg Math_sqrt Math_abs gt lt
       FloatModel.float_Number] in *.

Section FloatArithmetic.
Import Floats SpecFloat FloatAxioms FloatModel.

(** Rounding does not look at the sign. *)
Lemma binary_round_aux_abs (m e : Z) (l : location) :
  SFabs (binary_round_aux prec emax true m e l) =
  SFabs (binary_round_aux prec emax false m e l).
Proof.
  unfold binary_round_aux.
  destruct (shr_fexp prec emax m e l) as [mrs' e'].
  destruct (shr_fexp prec emax _ e' loc_Exact) as [mrs'' e''].
  destruct (shr_m mrs''); try reflexivity.
  destruct (Z.leb e'' (emax - prec)); reflexivity.
Qed.

Lemma binary_normalize_abs_opp (m e : Z) :
  SFabs (binary_normalize prec emax (- m) e false) =
  SFabs (binary_normalize prec emax m e false).
Proof.
  destruct m as [|p|p]; simpl; try reflexivity; unfold binary_round;
    destruct (shl_align p e _) as [mz ez];
    [|symmetry]; apply binary_round_aux_abs.
Qed.

(** [x - y] and [y - x] differ by their sign at most. *)
Lemma SFsub_abs_swap (x y : spec_float) :
  SFabs (SFsub prec emax x y) = SFabs (SFsub prec emax y x).
Proof.
  destruct x as [sx|sx| |sx mx ex], y as [sy|sy| |sy my ey];
    try reflexivity;
    try (destruct sx, sy; reflexivity).
  unfold SFsub. rewrite (Z.min_comm ey ex).
  set (ez := Z.min ex ey).
  set (a := cond_Zopp sx (Z.pos (fst (shl_align mx ex ez)))).
  set (b := cond_Zopp sy (Z.pos (fst (shl_align my ey ez)))).
  replace (b - a)%Z with (- (a - b))%Z by lia.
  symmetry. apply binary_normalize_abs_opp.
Qed.

Lemma SFmul_square (a b : spec_float) :
  SFabs a = SFabs b -> SFmul prec emax a a = SFmul prec emax b b.
Proof.
  destruct a as [sa|sa| |sa ma ea], b as [sb|sb| |sb mb eb];
    simpl; intros Hab; try discriminate; try reflexivity.
  - destruct sa, sb; reflexivity.
  - destruct sa, sb; reflexivity.
  - injection Hab as -> ->. destruct sa, sb; reflexivity.
Qed.

Lemma SFmul_comm (a b : spec_float) :
  SFmul prec emax a b = SFmul prec emax b a.
Proof.
  destruct a as [sa|sa| |sa ma ea], b as [sb|sb| |sb mb eb];
    simpl; try reflexivity; try (rewrite xorb_comm; reflexivity).
  rewrite xorb_comm, Pos.mul_comm, Z.add_comm. reflexivity.
Qed.

Lemma float_mul_comm (x y : float) : PrimFloat.mul x y = PrimFloat.mul y x.
Proof. apply Prim2SF_inj. rewrite !mul_spec. apply SFmul_comm. Qed.

Lemma float_abs_sub_swap (x y : float) :
  PrimFloat.abs (PrimFloat.sub x y) = PrimFloat.abs (PrimFloat.sub y x).
Proof. apply Prim2SF_inj. rewrite !abs_spec, !sub_spec. apply SFsub_abs_swap. Qed.

Lemma float_square_sub_swap (x y : float) :
  PrimFloat.mul (PrimFloat.sub x y) (PrimFloat.sub x y) =
  PrimFloat.mul (PrimFloat.sub y x) (PrimFloat.sub y x).
Proof.
  apply Prim2SF_inj. rewrite !mul_spec, !sub_spec.
  apply SFmul_square, SFsub_abs_swap.
Qed.









(** An edge between two vertices that coincide ([dx == 0] and [dy == 0]): its
    length is 0 and both components of its normal are [0 / 0]. *)
Lemma eqb_zero_inv (a : float) :
  PrimFloat.eqb a 0 = true -> exists s, Prim2SF a = S754_zero s.
Proof.
  rewrite eqb_spec. change (Prim2SF 0) with (S754_zero false).
  destruct (Prim2SF a) as [s|s| |s m e]; try destruct s; simpl;
    try discriminate; intros _; eexists; reflexivity.
Qed.

Lemma is_nan_spec (a : float) : Prim2SF a = S754_nan -> PrimFloat.is_nan a = true.
Proof. intros Ha. unfold PrimFloat.is_nan. rewrite eqb_spec, Ha. reflexivity. Qed.

Lemma coinciding_vertices (tile : Tile.t float) (s e : Point.t float) :
  PrimFloat.eqb (Point.x e - Point.x s) 0 = true ->
  PrimFloat.eqb (Point.y e - Point.y s) 0 = true ->
  isZeroLength (edgeBetween tile s e) = true /\
  PrimFloat.is_nan (Point.x (Edge.normal (edgeBetween tile s e))) = true /\
  PrimFloat.is_nan (Point.y (Edge.normal (edgeBetween tile s e))) = true.
Proof.
  intros Hx Hy.
  destruct (eqb_zero_inv _ Hx) as [sx Hdx].
  destruct (eqb_zero_inv _ Hy) as [sy Hdy].
  unfold isZeroLength, edgeBetween. float_ops.
  change (ofZ 0) with 0%float.
  set (dx := (Point.x e - Point.x s)%float) in *.
  set (dy := (Point.y e - Point.y s)%float) in *.
  set (len := PrimFloat.sqrt (dx * dx + dy * dy)%float).
  assert (Hlen : Prim2SF len = S754_zero false).
  { unfold len. rewrite sqrt_spec, add_spec, !mul_spec, Hdx, Hdy.
    destruct sx, sy; reflexivity. }
  assert (Hnx : Prim2SF (dy / len)%float = S754_nan).
  { rewrite div_spec, Hdy, Hlen. reflexivity. }
  assert (Hny : Prim2SF (- dx / len)%float = S754_nan).
  { rewrite div_spec, opp_spec, Hdx, Hlen. reflexivity. }
  match goal with
  | |- context [if PrimFloat.ltb 0 ?u then _ else _] =>
      assert (Hdot : PrimFloat.ltb 0 u = false)
  end.
  { rewrite ltb_spec, add_spec, !mul_spec.
    cbn [Point.x Point.y]. rewrite Hnx. reflexivity. }
  rewrite Hdot. cbn [Edge.length Edge.normal Point.x Point.y].
  split; [|split].
  - rewrite eqb_spec, Hlen. reflexivity.
  - apply is_nan_spec. exact Hnx.
  - apply is_nan_spec. exact Hny.
Qed.

Lemma coinciding_vertices_give_NaN (tile : Tile.t float) (s e : Point.t float) :
  coincide s e = true ->
  isZeroLength (edgeBetween tile s e) = true /\
  hasNaNNormal (edgeBetween tile s e) = true.
Proof.
  unfold coincide, hasNaNNormal. intros Hc.
  apply andb_true_iff in Hc. destruct Hc as [Hx Hy].
  destruct (coinciding_vertices tile s e Hx Hy) as [Hl [Hnx Hny]].
  rewrite Hl, Hnx. split; reflexivity.
Qed.

Lemma float_arithmetic_symmetric :
  @SymmetricArithmetic float float_Number.
Proof.
  split; intros a b; unfold Math_pow2; float_ops.
  - apply float_mul_comm.
  - apply float_abs_sub_swap.
  - apply float_square_sub_swap.
Qed.

End FloatArithmetic.

(** ** Binary64: the code run on concrete tiles *)

Section FloatRuns.
Import Floats FloatModel.

(** The literals [43.3] and [0.9] of the code are the doubles the embedding
    computes with. *)
Lemma decimal_literals :
  PrimFloat.eqb (dec1 433) 0x1.5a66666666666p+5%float = true /\
  PrimFloat.eqb (dec1 9) 0x1.ccccccccccccdp-1%float = true.
Proof. vm_compute. split; reflexivity. Qed.

(** The top and bottom edges of the far square have length 0; they are
    returned all the same, with [0 / 0] as the components of their normal. *)
Lemma farSquare_edges :
  List.length (edgesUnrotated farSquare) = 4 /\
  map isZeroLength (edgesUnrotated farSquare) = [true; false; true; false] /\
  map hasNaNNormal (edgesUnrotated farSquare) = [true; false; true; false].
Proof. vm_compute. repeat split; reflexivity. Qed.

(** Comparisons with NaN are false, so a zero-length edge passes the gates on
    the normals and on the directions, and can win the search. *)
Lemma farSquare_snaps_to_NaN :
  canSnap (snapUnrotated farSquare farSquare) = true /\
  match snapPosition (snapUnrotated farSquare farSquare) with
  | Some p => PrimFloat.is_nan (Point.x p) && PrimFloat.is_nan (Point.y p)
  | None => false
  end = true.
Proof. vm_compute. split; reflexivity. Qed.

(** Scenario 2, run in binary64. *)
Lemma scenario2_in_binary64 :
  snapUnrotated squareA squareB =
  {| canSnap := true; snapPosition := Some snappedA |}.
Proof. vm_compute. reflexivity. Qed.

(** Scenario 2 after the snap, run in binary64: [A] at [(309, 300)] has an
    edge within 1.5 of an edge of [B] and compatible with it. *)
Lemma scenario2_alignment_in_binary64 :
  hasAlignedPair (edgesUnrotated squareAsnapped) (edgesUnrotated squareB) = true.
Proof. vm_compute. reflexivity. Qed.

(** No two edges of an unrotated tile at the origin are compatible, run in
    binary64 on the four shapes. *)
Lemma origin_tiles_in_binary64 :
  forallb (fun sh => noCompatiblePair (edgesUnrotated (atOrigin sh))
                                      (edgesUnrotated (atOrigin sh)))
          [triangle; square; hexagon; diamond] = true.
Proof. vm_compute. reflexivity. Qed.

(** A tile as [addShape] places it does not snap onto a second one added at
    the same place, run in binary64 on the four shapes. *)
Lemma added_tiles_in_binary64 :
  forallb (fun sh => negb (canSnap (snapUnrotated (asAdded sh) (asAdded sh))))
          [triangle; square; hexagon; diamond] = true.
Proof. vm_compute. reflexivity. Qed.

End FloatRuns.

(** * The claims *)

Import FloatModel.

(** C1: for the squares [A] at [(300, 300)] and [B] at [(360, 300)], both
    with rotation 0, [canTilesSnap A B] answers [canSnap = true] with the
    snap position [(309, 300)]: the right edge midpoint of [A] ([x = 325])
    brought onto the left edge midpoint of [B] ([x = 335]), an offset of 10,
    then the push of 1 along the outward normal [(-1, 0)] of that left edge.
    The position is within the push of [(310, 300)].  The same holds of the
    run in binary64. *)
Theorem scenario2_squares_snap :
  (exists p : Point.t R,
      canTilesSnap tileA tileB = {| canSnap := true; snapPosition := Some p |} /\
      Point.x p = 309%R /\ Point.y p = 300%R /\
      (Rabs (Point.x p - 310) <= 1)%R) /\
  snapUnrotated squareA squareB =
    {| canSnap := true; snapPosition := Some snappedA |}.
Proof.
  split.
  - exists {| Point.x := 309%R; Point.y := 300%R |}.
    split; [exact scenario2_snap |]. cbn [Point.x Point.y].
    repeat split; try (apply Rabs_le; lra).
  - exact scenario2_in_binary64.
Qed.



(** C3, as the code has it: [getShapeEdges] has no test on the length of an
    edge.  In every model of [number] it returns one edge for each
    consecutive pair of vertices (3, 4, 6 or 4 edges) and skips none.  In
    binary64, an edge between two vertices that coincide is returned with
    length 0 and NaN as the components of its normal; the far square has two
    such edges among its four. *)
Theorem zero_length_edges_are_returned :
  (forall (N : Type) (num : Number N) (cos sin : N) (tile : Tile.t N),
      getShapeEdgesWith cos sin tile =
        map (edgeOfSide cos sin tile) (localSides (Tile.shape tile)) /\
      List.length (getShapeEdgesWith cos sin tile) =
        vertexCount (Tile.shape tile)) /\
  (forall (tile : Tile.t PrimFloat.float) (s e : Point.t PrimFloat.float),
      coincide s e = true ->
      isZeroLength (edgeBetween tile s e) = true /\
      hasNaNNormal (edgeBetween tile s e) = true) /\
  List.length (edgesUnrotated farSquare) = 4 /\
  map isZeroLength (edgesUnrotated farSquare) = [true; false; true; false] /\
  map hasNaNNormal (edgesUnrotated farSquare) = [true; false; true; false].
Proof.
  split; [|split].
  - intros N num cos sin tile. split.
    + apply getShapeEdgesWith_sides.
    + apply getShapeEdgesWith_length.
  - exact coinciding_vertices_give_NaN.
  - exact farSquare_edges.
Qed.

(** C3, as the claim states it, fails on the far square: the result of
    [getShapeEdges] holds an edge of length zero, and that edge has a NaN
    normal. *)
Lemma zero_length_edge_not_skipped :
  noZeroLength (edgesUnrotated farSquare) = false /\
  existsb (fun e => isZeroLength e && hasNaNNormal e)
          (edgesUnrotated farSquare) = true.
Proof. vm_compute. split; reflexivity. Qed.


(** C5: for every shape kind, on a tile of that kind at the origin with
    rotation 0, two distinct edges are never compatible: the pair fails the
    proximity gate (midpoint distance above 40) or the gate on the normals
    (dot product above -0.9), so [areEdgesCompatible] answers [false]. *)
Theorem origin_tile_edges_incompatible
        (sh : ShapeType) (id color : string) (i j : nat) (e1 e2 : Edge.t R) :
  let tile := Tile.mk id sh 0%R 0%R 0%R color None None in
  nth_error (getShapeEdges tile) i = Some e1 ->
  nth_error (getShapeEdges tile) j = Some e2 ->
  i <> j ->
  areEdgesCompatible e1 e2 = false /\
  ((midpointDistance e1 e2 > 40)%R \/ (normalDot e1 e2 > - (9 / 10))%R).
Proof.
  intros tile H1 H2 _.
  apply nth_error_In in H1. apply nth_error_In in H2.
  split.
  - apply same_tile_incompatible with tile; assumption.
  - apply same_tile_gate with tile; assumption.
Qed.

Lemma origin_tile_edges_incompatible_witness :
  let tile := Tile.mk "a" square 0%R 0%R 0%R "#ef4444" None None in
  let e1 := nth 0 (getShapeEdges tile) noEdge in
  let e2 := nth 2 (getShapeEdges tile) noEdge in
  areEdgesCompatible e1 e2 = false /\
  ((midpointDistance e1 e2 > 40)%R \/ (normalDot e1 e2 > - (9 / 10))%R).
Proof.
  intros tile e1 e2.
  apply (origin_tile_edges_incompatible square "a" "#ef4444" 0 2 e1 e2).
  - reflexivity.
  - reflexivity.
  - discriminate.
Defined.

(** C6: [areEdgesCompatible] is symmetric: for all edges [a] and [b] it
    answers the same for [(a, b)] and for [(b, a)].  This holds of the
    program's numbers (binary64, NaN and infinities included) and in exact
    arithmetic. *)
Theorem areEdgesCompatible_symmetric :
  (forall a b : Edge.t PrimFloat.float,
      areEdgesCompatible a b = areEdgesCompatible b a) /\
  (forall a b : Edge.t R,
      areEdgesCompatible a b = areEdgesCompatible b a).
Proof.
  split; intros a b; apply areEdgesCompatible_swap.
  - exact float_arithmetic_symmetric.
  - exact real_arithmetic_symmetric.
Qed.


(** C8: [canTilesSnap] pairs [canSnap] and [snapPosition] consistently, for
    every pair of tiles and in every model of [number]: [snapPosition] is
    [null] exactly when [canSnap] is false, and is a point exactly when
    [canSnap] is true. *)
Theorem canSnap_agrees_with_snapPosition
        (N : Type) (num : Number N) (trig : Trig N) (tile1 tile2 : Tile.t N) :
  let r := canTilesSnap tile1 tile2 in
  (snapPosition r = None <-> canSnap r = false) /\
  ((exists p, snapPosition r = Some p) <-> canSnap r = true).
Proof.
  unfold canTilesSnap.
  destruct (snapOfEdges_shape tile1 (getShapeEdges tile1) (getShapeEdges tile2))
    as [[Hc Hp] | [Hc [p Hp]]]; cbv zeta; rewrite Hc, Hp.
  - split; split; intros Hx; try reflexivity.
    + destruct Hx as [q Hq]. discriminate.
    + discriminate.
  - split; split; intros Hx; try reflexivity; try discriminate.
    exists p. reflexivity.
Qed.

(** C9: for every symmetry mode and every primary tile, in every model of
    [number], each mirror that [createSymmetryMirrors] returns has the
    shape, rotation and color of the primary; it differs only in its
    position, its id and the mirror marks ([isSymmetryMirror] is [true],
    [originalId] is the id of the primary). *)
Theorem mirrors_keep_shape_rotation_color
        (N : Type) (num : Number N)
        (symmetryMode : SymmetryMode) (originalTile : Tile.t N) (ids : IdSource) :
  Forall (keepsAppearance originalTile)
         (fst (createSymmetryMirrors symmetryMode originalTile ids)).
Proof.
  destruct symmetryMode; simpl;
    repeat constructor; apply mirrorTile_keepsAppearance.
Qed.


(** * Further properties of the code *)

(** ** The search of [canTilesSnap] as one loop over the pairs *)

Section SearchOrder.
Context {N : Type} `{Number N}.

(** The nested loops visit the pairs of [list_prod], in that order. *)
Lemma findBestSnap_as_fold (edges1 edges2 : list (Edge.t N)) :
  findBestSnap edges1 edges2 =
  fold_left (fun b p => considerPair b (fst p) (snd p))
            (list_prod edges1 edges2) None.
Proof.
  unfold findBestSnap. generalize (@None (BestSnap.t N)).
  induction edges1 as [|e1 es IH]; intros b; simpl.
  - reflexivity.
  - rewrite fold_left_app, IH. f_equal.
    clear IH. revert b. induction edges2 as [|e2 es2 IH2]; intros b; simpl.
    + reflexivity.
    + apply IH2.
Qed.

Lemma considerPair_keeps_some b (e1 e2 : Edge.t N) :
  b <> None -> considerPair b e1 e2 <> None.
Proof.
  intros Hb. unfold considerPair.
  destruct (areEdgesCompatible e1 e2); [|exact Hb].
  destruct b as [best|]; [|congruence].
  destruct (lt _ _); discriminate.
Qed.

Lemma fold_keeps_some (pairs : list (Edge.t N * Edge.t N)) b :
  b <> None ->
  fold_left (fun b p => considerPair b (fst p) (snd p)) pairs b <> None.
Proof.
  revert b. induction pairs as [|p ps IH]; intros b Hb; simpl.
  - exact Hb.
  - apply IH, considerPair_keeps_some, Hb.
Qed.

Lemma fold_finds_compatible (pairs : list (Edge.t N * Edge.t N)) b e1 e2 :
  In (e1, e2) pairs ->
  areEdgesCompatible e1 e2 = true ->
  fold_left (fun b p => considerPair b (fst p) (snd p)) pairs b <> None.
Proof.
  revert b. induction pairs as [|p ps IH]; intros b Hin Hc; simpl.
  - contradiction.
  - destruct Hin as [-> | Hin].
    + apply fold_keeps_some. simpl. unfold considerPair. rewrite Hc.
      destruct b as [best|]; [destruct (lt _ _)|]; discriminate.
    + apply IH; assumption.
Qed.

End SearchOrder.

(** X1: [canTilesSnap] answers [canSnap = true] exactly when some edge of the
    first tile and some edge of the second are compatible; this holds in
    every model of [number]. *)
Theorem canSnap_iff_some_pair_is_compatible
        (N : Type) (num : Number N) (trig : Trig N) (tile1 tile2 : Tile.t N) :
  canSnap (canTilesSnap tile1 tile2) = true <->
  exists e1 e2,
    In e1 (getShapeEdges tile1) /\ In e2 (getShapeEdges tile2) /\
    areEdgesCompatible e1 e2 = true.
Proof.
  unfold canTilesSnap, snapOfEdges. split.
  - destruct (findBestSnap (getShapeEdges tile1) (getShapeEdges tile2))
      as [best|] eqn:Hbest; [|discriminate].
    intros _. exists (BestSnap.edge1 best), (BestSnap.edge2 best).
    apply findBestSnap_sound. exact Hbest.
  - intros [e1 [e2 [H1 [H2 Hc]]]].
    destruct (findBestSnap (getShapeEdges tile1) (getShapeEdges tile2))
      as [best|] eqn:Hbest; [reflexivity|].
    exfalso. rewrite findBestSnap_as_fold in Hbest.
    apply (fold_finds_compatible (list_prod (getShapeEdges tile1) (getShapeEdges tile2))
             None e1 e2); auto.
    apply in_prod; assumption.
Qed.

(** ** The pair that wins the search *)

Section RealSearch.
Local Open Scope R_scope.

Lemma searchState_step seen b (p : Edge.t R * Edge.t R) :
  searchState seen b ->
  searchState (seen ++ [p]) (considerPair b (fst p) (snd p)).
Proof.
  intros Hinv. unfold considerPair.
  destruct (areEdgesCompatible (fst p) (snd p)) eqn:Hc.
  - destruct b as [best|]; cbn [searchState] in Hinv.
    + destruct Hinv as [Hd [Hbc [before [after [Hseen [Hb Ha]]]]]].
      real_ops.
      destruct (Rltb (midpointDistance (fst p) (snd p)) (BestSnap.distance best))
        eqn:Hlt.
      * apply Rltb_true in Hlt. rewrite Hd in Hlt.
        split; [reflexivity|]. split; [exact Hc|].
        exists seen, []. split; [destruct p; reflexivity|]. split.
        -- intros q Hq Hqc. rewrite Hseen in Hq.
           apply in_app_or in Hq. destruct Hq as [Hq | [<- | Hq]].
           ++ specialize (Hb q Hq Hqc). cbn [BestSnap.edge1 BestSnap.edge2]. lra.
           ++ cbn [BestSnap.edge1 BestSnap.edge2 fst snd]. lra.
           ++ specialize (Ha q Hq Hqc). cbn [BestSnap.edge1 BestSnap.edge2]. lra.
        -- intros q [].
      * apply Rltb_false in Hlt. rewrite Hd in Hlt.
        split; [exact Hd|]. split; [exact Hbc|].
        exists before, (after ++ [p]). split.
        -- rewrite Hseen, <- app_assoc. reflexivity.
        -- split; [exact Hb|].
           intros q Hq Hqc. apply in_app_or in Hq.
           destruct Hq as [Hq | [<- | []]]; [apply Ha; assumption | exact Hlt].
    + split; [reflexivity|]. split; [exact Hc|].
      exists seen, []. split; [destruct p; reflexivity|]. split.
      * intros q Hq Hqc. rewrite (Hinv q Hq) in Hqc. discriminate.
      * intros q [].
  - destruct b as [best|]; cbn [searchState] in *.
    + destruct Hinv as [Hd [Hbc [before [after [Hseen [Hb Ha]]]]]].
      split; [exact Hd|]. split; [exact Hbc|].
      exists before, (after ++ [p]). split.
      * rewrite Hseen, <- app_assoc. reflexivity.
      * split; [exact Hb|].
        intros q Hq Hqc. apply in_app_or in Hq.
        destruct Hq as [Hq | [<- | []]]; [apply Ha; assumption | congruence].
    + intros q Hq. apply in_app_or in Hq.
      destruct Hq as [Hq | [<- | []]]; [apply Hinv; assumption | exact Hc].
Qed.

Lemma searchState_fold rest :
  forall seen b,
    searchState seen b ->
    searchState (seen ++ rest)
      (fold_left (fun b p => considerPair b (fst p) (snd p)) rest b).
Proof.
  induction rest as [|p ps IH]; intros seen b Hinv; simpl.
  - rewrite app_nil_r. exact Hinv.
  - replace (seen ++ p :: ps) with ((seen ++ [p]) ++ ps)
      by (rewrite <- app_assoc; reflexivity).
    apply IH, searchState_step, Hinv.
Qed.

Lemma findBestSnap_state (edges1 edges2 : list (Edge.t R)) :
  searchState (list_prod edges1 edges2) (findBestSnap edges1 edges2).
Proof.
  rewrite findBestSnap_as_fold.
  apply (searchState_fold (list_prod edges1 edges2) [] None).
  intros p [].
Qed.

End RealSearch.

(** X2: when [canTilesSnap A B] answers a position [P], there is a pair of
    edges [(e1, e2)], of [A] and of [B], that is compatible and wins the
    search: the compatible pairs met before it in iteration order are
    strictly farther apart, those met after it are not closer; and [P] is
    the center of [A] moved by the offset between the two midpoints and by
    one unit of the normal of [e2]. *)
Theorem snap_position_comes_from_the_nearest_pair
        (A B : Tile.t R) (P : Point.t R) :
  canTilesSnap A B = {| canSnap := true; snapPosition := Some P |} ->
  exists e1 e2,
    winsSearch (list_prod (getShapeEdges A) (getShapeEdges B)) e1 e2 /\
    Point.x P = (Tile.x A +
                 (Point.x (Edge.midpoint e2) - Point.x (Edge.midpoint e1)) +
                 Point.x (Edge.normal e2) * 1)%R /\
    Point.y P = (Tile.y A +
                 (Point.y (Edge.midpoint e2) - Point.y (Edge.midpoint e1)) +
                 Point.y (Edge.normal e2) * 1)%R.
Proof.
  unfold canTilesSnap, snapOfEdges.
  pose proof (findBestSnap_state (getShapeEdges A) (getShapeEdges B)) as Hst.
  destruct (findBestSnap (getShapeEdges A) (getShapeEdges B))
    as [best|]; [|discriminate].
  intros Hres. injection Hres as <-.
  destruct Hst as [_ Hwin].
  exists (BestSnap.edge1 best), (BestSnap.edge2 best).
  split; [exact Hwin|]. split; reflexivity.
Qed.

Lemma snap_position_comes_from_the_nearest_pair_witness :
  exists e1 e2,
    winsSearch (list_prod (getShapeEdges tileA) (getShapeEdges tileB)) e1 e2 /\
    Point.x (Point.mk 309%R 300%R) =
      (Tile.x tileA +
       (Point.x (Edge.midpoint e2) - Point.x (Edge.midpoint e1)) +
       Point.x (Edge.normal e2) * 1)%R /\
    Point.y (Point.mk 309%R 300%R) =
      (Tile.y tileA +
       (Point.y (Edge.midpoint e2) - Point.y (Edge.midpoint e1)) +
       Point.y (Edge.normal e2) * 1)%R.
Proof.
  apply (snap_position_comes_from_the_nearest_pair tileA tileB (Point.mk 309%R 300%R)).
  exact scenario2_snap.
Defined.


(** ** The edges of a placed tile *)

(** X4: the edges that [getShapeEdges] returns form a closed loop, in every
    model of [number]: there is one edge per vertex of the shape, and each
    edge ends where the next one starts, the last where the first starts. *)
Theorem edges_form_a_closed_loop
        (N : Type) (num : Number N) (trig : Trig N) (tile : Tile.t N) :
  let edges := getShapeEdges tile in
  List.length edges = vertexCount (Tile.shape tile) /\
  map (@Edge.end_ N) edges =
    tl (map (@Edge.start N) edges) ++ firstn 1 (map (@Edge.start N) edges).
Proof.
  cbv zeta. unfold getShapeEdges. rewrite getShapeEdgesWith_sides.
  destruct (Tile.shape tile); split; reflexivity.
Qed.

Section RealEdges.
Local Open Scope R_scope.


End RealEdges.



(** ** Identifiers, mirrors and the list of tiles *)

Section AnyNumberTiles.
Context {N : Type} `{Number N} `{Trig N} `{Operators N} `{Atan2 N}.

Lemma hasId_true (tileId : string) (tile : Tile.t N) :
  hasId tileId tile = true <-> Tile.id tile = tileId.
Proof. unfold hasId. apply String.eqb_eq. Qed.

Lemma hasId_false (tileId : string) (tile : Tile.t N) :
  hasId tileId tile = false <-> Tile.id tile <> tileId.
Proof. unfold hasId. apply String.eqb_neq. Qed.

(** Filtering out an identifier that no tile has changes nothing. *)
Lemma filter_fresh (tileId : string) (tiles : list (Tile.t N)) :
  (forall t, In t tiles -> Tile.id t <> tileId) ->
  filter (fun t => negb (hasId tileId t)) tiles = tiles.
Proof.
  induction tiles as [|t ts IH]; intros Hfresh; simpl.
  - reflexivity.
  - rewrite (proj2 (hasId_false tileId t)) by (apply Hfresh; now left).
    simpl. f_equal. apply IH. intros u Hu. apply Hfresh. now right.
Qed.

Lemma createSymmetryMirrors_run (symmetryMode : SymmetryMode)
      (originalTile : Tile.t N) (ids : IdSource) :
  let r := createSymmetryMirrors symmetryMode originalTile ids in
  List.length (fst r) = mirrorCount symmetryMode /\
  map (@Tile.id N) (fst r) =
    map (draws ids) (seq (drawn ids) (mirrorCount symmetryMode)) /\
  draws (snd r) = draws ids /\
  drawn (snd r) = drawn ids + mirrorCount symmetryMode.
Proof.
  destruct symmetryMode; simpl; repeat split; lia.
Qed.

End AnyNumberTiles.

(** X7: [createSymmetryMirrors] returns as many mirrors as the mode has (none
    0, horizontal 1, vertical 1, radial 3); their identifiers are the next
    draws of [generateId], in order, one draw per mirror and no more. *)
Theorem mirrors_take_the_next_identifiers
        (N : Type) (num : Number N)
        (symmetryMode : SymmetryMode) (originalTile : Tile.t N) (ids : IdSource) :
  let r := createSymmetryMirrors symmetryMode originalTile ids in
  List.length (fst r) = mirrorCount symmetryMode /\
  map (@Tile.id N) (fst r) =
    map (draws ids) (seq (drawn ids) (mirrorCount symmetryMode)) /\
  draws (snd r) = draws ids /\
  drawn (snd r) = drawn ids + mirrorCount symmetryMode.
Proof. exact (createSymmetryMirrors_run symmetryMode originalTile ids). Qed.

(** X8: [addShape] puts the new tile and its mirrors after the tiles already
    there, which it leaves as they are; the identifiers of the new tiles are
    the next [1 + mirrorCount] draws; the selection, the drag state, the
    color, the mode and the suggestion flag are not touched. *)
Theorem addShape_appends_the_tile_and_its_mirrors
        (N : Type) (num : Number N)
        (shapeType : ShapeType) (app : App.t N) (ids : IdSource) :
  let r := addShape shapeType app ids in
  let added := 1 + mirrorCount (App.symmetryMode app) in
  firstn (List.length (App.tiles app)) (App.tiles (fst r)) = App.tiles app /\
  map (@Tile.id N) (skipn (List.length (App.tiles app)) (App.tiles (fst r))) =
    map (draws ids) (seq (drawn ids) added) /\
  drawn (snd r) = drawn ids + added /\
  App.selectedTile (fst r) = App.selectedTile app /\
  App.dragState (fst r) = App.dragState app /\
  App.selectedColor (fst r) = App.selectedColor app /\
  App.symmetryMode (fst r) = App.symmetryMode app /\
  App.showSuggestions (fst r) = App.showSuggestions app.
Proof.
  cbv zeta. unfold addShape, bind, generateId, ret, setTiles.
  destruct (App.symmetryMode app) eqn:Hmode; simpl;
    rewrite ?Hmode;
    (split; [rewrite firstn_app, firstn_all, Nat.sub_diag; apply app_nil_r|]);
    (split; [rewrite skipn_app, skipn_all, Nat.sub_diag; reflexivity|]);
    repeat split; lia.
Qed.

(** X9: after [deleteTile] no tile has the identifier; the tiles left are
    those that do not have it, mirrors of the deleted tile included; the
    selection is cleared when, and only when, the selected tile has the
    identifier; deleting a second time changes nothing. *)
Theorem deleteTile_removes_the_identifier_only
        (N : Type) (num : Number N) (tileId : string) (app : App.t N) :
  let app' := deleteTile tileId app in
  (forall t, In t (App.tiles app') <->
             In t (App.tiles app) /\ Tile.id t <> tileId) /\
  (forall m, In m (App.tiles app) -> Tile.originalId m = Some tileId ->
             Tile.id m <> tileId -> In m (App.tiles app')) /\
  App.selectedTile app' =
    match App.selectedTile app with
    | Some selected =>
        if String.eqb (Tile.id selected) tileId then None else Some selected
    | None => None
    end /\
  deleteTile tileId app' = app'.
Proof.
  cbv zeta.
  assert (Hin : forall t, In t (App.tiles (deleteTile tileId app)) <->
                          In t (App.tiles app) /\ Tile.id t <> tileId).
  { intros t. unfold deleteTile, setTilesAndSelected. simpl.
    rewrite filter_In, negb_true_iff, hasId_false. reflexivity. }
  split; [exact Hin|].
  split; [intros m Hm _ Hid; apply Hin; split; assumption|].
  split; [reflexivity|].
  unfold deleteTile, setTilesAndSelected. simpl. f_equal.
  - apply filter_fresh. intros t Ht.
    apply filter_In in Ht. destruct Ht as [_ Ht].
    apply negb_true_iff in Ht. apply hasId_false in Ht. exact Ht.
  - destruct (App.selectedTile app) as [selected|]; [|reflexivity].
    destruct (hasId tileId selected) eqn:Hsel; [reflexivity|].
    rewrite Hsel. reflexivity.
Qed.

(** The tile that [addShape] creates with the identifier [id]. *)
Lemma addShape_tiles (N : Type) (num : Number N)
      (shapeType : ShapeType) (app : App.t N) (ids : IdSource) :
  let newTile :=
    {| Tile.id := draws ids (drawn ids);
       Tile.shape := shapeType;
       Tile.x := lit 300;
       Tile.y := lit 300;
       Tile.rotation := lit 0;
       Tile.color := App.selectedColor app;
       Tile.isSymmetryMirror := None;
       Tile.originalId := None |} in
  App.tiles (fst (addShape shapeType app ids)) =
  App.tiles app ++
  newTile :: fst (createSymmetryMirrors (App.symmetryMode app) newTile
                    {| draws := draws ids; drawn := S (drawn ids) |}).
Proof.
  cbv zeta. unfold addShape, bind, generateId, ret, setTiles.
  destruct (createSymmetryMirrors _ _ _) as [mirrors ids']. reflexivity.
Qed.

(** X10: [addShape] followed by [deleteTile] of the tile just added leaves
    the tiles that were there, followed by the mirrors of the deleted tile:
    the mirrors are not deleted with their original, to which their
    [originalId] still refers.  The identifier drawn for the new tile is
    assumed fresh: no tile has it, and the draws for the mirrors differ from
    it. *)
Theorem deleting_an_added_tile_leaves_its_mirrors
        (N : Type) (num : Number N)
        (shapeType : ShapeType) (app : App.t N) (ids : IdSource) :
  let id := draws ids (drawn ids) in
  let added := fst (addShape shapeType app ids) in
  let mirrors := skipn (S (List.length (App.tiles app))) (App.tiles added) in
  (forall t, In t (App.tiles app) -> Tile.id t <> id) ->
  (forall k, 1 <= k <= mirrorCount (App.symmetryMode app) ->
             draws ids (drawn ids + k) <> id) ->
  App.tiles (deleteTile id added) = App.tiles app ++ mirrors /\
  List.length mirrors = mirrorCount (App.symmetryMode app) /\
  Forall (fun m => Tile.originalId m = Some id) mirrors /\
  Forall (fun t => Tile.id t <> id) (App.tiles (deleteTile id added)).
Proof.
  cbv zeta. intros Hold Hnew.
  rewrite addShape_tiles.
  set (newTile := Tile.mk (draws ids (drawn ids)) shapeType (lit 300) (lit 300)
                          (lit 0) (App.selectedColor app) None None).
  set (ids1 := {| draws := draws ids; drawn := S (drawn ids) |}).
  destruct (createSymmetryMirrors_run (App.symmetryMode app) newTile ids1)
    as [Hlen [Hids _]].
  set (mirrors := fst (createSymmetryMirrors (App.symmetryMode app) newTile ids1)) in *.
  assert (Hskip : skipn (S (List.length (App.tiles app)))
                        (App.tiles app ++ newTile :: mirrors) = mirrors).
  { rewrite skipn_app, skipn_all2 by lia.
    replace (S (List.length (App.tiles app)) - List.length (App.tiles app)) with 1
      by lia.
    reflexivity. }
  rewrite Hskip.
  assert (Hfresh : forall m, In m mirrors -> Tile.id m <> draws ids (drawn ids)).
  { intros m Hm.
    apply (in_map (@Tile.id N)) in Hm. rewrite Hids in Hm.
    apply in_map_iff in Hm. destruct Hm as [n [<- Hn]].
    apply in_seq in Hn. cbn [drawn ids1] in Hn.
    replace n with (drawn ids + (n - drawn ids)) by lia.
    apply Hnew. lia. }
  assert (Hdel : App.tiles (deleteTile (draws ids (drawn ids))
                   (fst (addShape shapeType app ids))) = App.tiles app ++ mirrors).
  { unfold deleteTile, setTilesAndSelected. cbn [App.tiles].
    rewrite addShape_tiles. fold newTile ids1 mirrors.
    rewrite filter_app. cbn [filter].
    replace (hasId (draws ids (drawn ids)) newTile) with true
      by (symmetry; apply hasId_true; reflexivity).
    cbn [negb]. rewrite !filter_fresh by assumption. reflexivity. }
  split; [exact Hdel|]. split; [exact Hlen|]. split.
  - subst mirrors. destruct (App.symmetryMode app); cbn; repeat constructor.
  - rewrite Hdel. apply Forall_forall. intros t Ht.
    apply in_app_or in Ht. destruct Ht as [Ht | Ht]; [apply Hold | apply Hfresh];
      exact Ht.
Qed.

Lemma deleting_an_added_tile_leaves_its_mirrors_witness :
  let app : App.t R :=
    {| App.tiles := [];
       App.selectedTile := None;
       App.dragState := noDrag;
       App.selectedColor := "#3b82f6";
       App.symmetryMode := radial;
       App.showSuggestions := false |} in
  let added := fst (addShape hexagon app letters) in
  let mirrors := skipn 1 (App.tiles added) in
  App.tiles (deleteTile "a" added) = mirrors /\
  List.length mirrors = 3 /\
  Forall (fun m => Tile.originalId m = Some "a"%string) mirrors /\
  Forall (fun t => Tile.id t <> "a"%string) (App.tiles (deleteTile "a" added)).
Proof.
  cbv zeta.
  apply (deleting_an_added_tile_leaves_its_mirrors R R_Number hexagon
           {| App.tiles := [];
              App.selectedTile := None;
              App.dragState := noDrag;
              App.selectedColor := "#3b82f6";
              App.symmetryMode := radial;
              App.showSuggestions := false |} letters).
  - intros t [].
  - cbn. intros k Hk.
    destruct k as [|[|[|[|k]]]]; try lia; discriminate.
Defined.

(** X11: [duplicateTile] followed by [deleteTile] of the identifier drawn
    for the duplicate gives back the tiles as they were, whether or not a
    tile had the identifier to duplicate; the drawn identifier is assumed
    fresh. *)
Theorem deleting_a_duplicate_restores_the_tiles
        (N : Type) (num : Number N)
        (tileId : string) (app : App.t N) (ids : IdSource) :
  (forall t, In t (App.tiles app) -> Tile.id t <> draws ids (drawn ids)) ->
  App.tiles (deleteTile (draws ids (drawn ids))
               (fst (duplicateTile tileId app ids))) = App.tiles app.
Proof.
  intros Hfresh. unfold duplicateTile.
  destruct (find (hasId tileId) (App.tiles app)) as [original|].
  - unfold bind, generateId, ret, setTiles, deleteTile, setTilesAndSelected.
    cbn [fst App.tiles].
    rewrite filter_app, filter_fresh by assumption. cbn [filter].
    match goal with |- context [hasId ?i ?t] =>
      replace (hasId i t) with true by (symmetry; apply hasId_true; reflexivity)
    end.
    apply app_nil_r.
  - unfold ret, deleteTile, setTilesAndSelected. cbn [fst App.tiles].
    apply filter_fresh, Hfresh.
Qed.

Lemma deleting_a_duplicate_restores_the_tiles_witness :
  let app : App.t R :=
    {| App.tiles := [ tileAt square 100 100 45 ];
       App.selectedTile := None;
       App.dragState := noDrag;
       App.selectedColor := "#3b82f6";
       App.symmetryMode := radial;
       App.showSuggestions := false |} in
  App.tiles (deleteTile "a" (fst (duplicateTile "t" app letters))) = App.tiles app.
Proof.
  cbv zeta.
  apply (deleting_a_duplicate_restores_the_tiles R R_Number "t"
           {| App.tiles := [ tileAt square 100 100 45 ];
              App.selectedTile := None;
              App.dragState := noDrag;
              App.selectedColor := "#3b82f6";
              App.symmetryMode := radial;
              App.showSuggestions := false |} letters).
  intros t [<- | []]. discriminate.
Defined.

(** ** Exact arithmetic: mirrors and rotation *)

Ltac real_handlers :=
  cbn [rem strictEq Math_max Math_min belowInfinity R_Operators
       Math_atan2 R_Atan2] in *;
  real_ops.


(** X13: whatever the symmetry mode, [addShape] puts the new tile and all
    its mirrors at the same place, the canvas center [(300, 300)], unrotated
    and of the same shape; no two of them snap to each other. *)
Theorem addShape_piles_the_mirrors_at_the_center
        (shapeType : ShapeType) (app : App.t R) (ids : IdSource) :
  let added :=
    skipn (List.length (App.tiles app))
          (App.tiles (fst (addShape shapeType app ids))) in
  Forall (fun t => Tile.shape t = shapeType /\
                   Tile.x t = 300%R /\ Tile.y t = 300%R /\
                   Tile.rotation t = 0%R) added /\
  forall t1 t2, In t1 added -> In t2 added ->
                canTilesSnap t1 t2 = {| canSnap := false; snapPosition := None |}.
Proof.
  cbv zeta.
  assert (Hall : Forall (fun t => Tile.shape t = shapeType /\
                                  Tile.x t = 300%R /\ Tile.y t = 300%R /\
                                  Tile.rotation t = 0%R)
                        (skipn (List.length (App.tiles app))
                               (App.tiles (fst (addShape shapeType app ids))))).
  { rewrite addShape_tiles, skipn_app, skipn_all, Nat.sub_diag.
    cbn [skipn List.app].
    destruct (App.symmetryMode app); cbn; unfold mirrorTile; real_ops; fields;
      repeat (apply Forall_cons; [fields; repeat split; lra|]); apply Forall_nil. }
  split; [exact Hall|].
  intros t1 t2 H1 H2.
  rewrite Forall_forall in Hall.
  destruct (Hall t1 H1) as [S1 [X1 [Y1 R1]]].
  destruct (Hall t2 H2) as [S2 [X2 [Y2 R2]]].
  apply same_place_no_snap; congruence.
Qed.

Section RealRemainder.
Local Open Scope R_scope.






End RealRemainder.

Section RealRotation.
Local Open Scope R_scope.



End RealRotation.



(** ** Exact arithmetic: dragging *)

Section AnyNumberMap.
Context {A B : Type}.

(** A [map] whose function draws identifiers but whose results do not
    depend on them. *)
Lemma mapGen_fst (f : A -> Gen B) (g : A -> B) (l : list A) :
  (forall a ids, In a l -> fst (f a ids) = g a) ->
  forall ids, fst (mapGen f l ids) = map g l.
Proof.
  induction l as [|a l IH]; intros Hfg ids.
  - reflexivity.
  - cbn [mapGen map]. unfold bind.
    pose proof (Hfg a ids (or_introl eq_refl)) as Ha.
    destruct (f a ids) as [b ids1]. cbn [fst] in Ha. subst b.
    pose proof (IH (fun a' s H => Hfg a' s (or_intror H)) ids1) as Hl.
    destruct (mapGen f l ids1) as [bs ids2]. cbn [fst] in Hl. subst bs.
    reflexivity.
Qed.

End AnyNumberMap.

Section RealDrag.
Local Open Scope R_scope.

Lemma Reqb_true (a b : R) : Reqb a b = true -> a = b.
Proof. unfold Reqb. destruct (Req_dec_T a b); [auto | discriminate]. Qed.

Lemma bounded_range (v : R) : 50 <= bounded v <= 550.
Proof.
  unfold bounded. real_handlers. unfold Rmax, Rmin.
  destruct (Rle_dec 550 v); destruct (Rle_dec 50 _); lra.
Qed.


(** What the mirrors of a tile keep of it. *)
Lemma createSymmetryMirrors_keep (symmetryMode : SymmetryMode)
      (originalTile m : Tile.t R) (ids : IdSource) :
  In m (fst (createSymmetryMirrors symmetryMode originalTile ids)) ->
  Tile.shape m = Tile.shape originalTile /\
  Tile.rotation m = Tile.rotation originalTile /\
  Tile.color m = Tile.color originalTile.
Proof.
  destruct symmetryMode; cbn; intros Hin;
    repeat (destruct Hin as [<- | Hin]; [repeat split|]); contradiction.
Qed.

(** The mirror branch of [performMove] gives back the tile it is given: the
    mirror that replaces it is one found at the place where it already is,
    with its shape, rotation and color. *)
Lemma moveMirror_same (symmetryMode : SymmetryMode) (tileId : string)
      (boundedX boundedY : R) (tile : Tile.t R) (ids : IdSource) :
  isMirrorOf tileId tile = true ->
  fst (moveMirror symmetryMode boundedX boundedY tile ids) = tile.
Proof.
  intros Hmirror. unfold moveMirror, bind, ret.
  set (originalTile := Tile.mk (Tile.id tile) (Tile.shape tile) boundedX boundedY
                               (Tile.rotation tile) (Tile.color tile)
                               (Some false) None).
  pose proof (fun m => createSymmetryMirrors_keep symmetryMode originalTile m ids)
    as Hkeep.
  destruct (createSymmetryMirrors symmetryMode originalTile ids)
    as [mirrors ids1].
  cbn [fst] in *.
  destruct (find _ mirrors) as [m|] eqn:Hfind; [|reflexivity].
  apply find_some in Hfind. destruct Hfind as [Hin Hat].
  apply andb_true_iff in Hat. destruct Hat as [Hx Hy].
  real_handlers. apply Reqb_true in Hx, Hy.
  destruct (Hkeep m Hin) as [Hs [Hr Hc]].
  subst originalTile. cbn [Tile.shape Tile.rotation Tile.color] in Hs, Hr, Hc.
  rewrite Hs, Hr, Hc, Hx, Hy.
  unfold isMirrorOf in Hmirror.
  destruct tile as [id sh x y rot col [[|]|] [orig|]]; cbn in *;
    try discriminate; reflexivity.
Qed.

(** The function that [performMove] maps over the tiles, in effect. *)
Lemma moveTile_effect (symmetryMode : SymmetryMode) (tileId : string)
      (boundedX boundedY : R) (tile : Tile.t R) (ids : IdSource) :
  fst (moveTile symmetryMode tileId boundedX boundedY tile ids) =
  if hasId tileId tile then withPosition tile boundedX boundedY else tile.
Proof.
  unfold moveTile.
  destruct (hasId tileId tile); [reflexivity|].
  destruct (isMirrorOf tileId tile) eqn:Hmirror; [|reflexivity].
  apply (moveMirror_same symmetryMode tileId), Hmirror.
Qed.

End RealDrag.

Lemma performMove_tiles
        (clientX clientY : R) (rect : Rect.t R) (app : App.t R)
        (tileId : string) (ids : IdSource) :
  DragState.isDragging (App.dragState app) = true ->
  truthyId (DragState.tileId (App.dragState app)) = Some tileId ->
  let boundedX :=
    bounded (clientX - Rect.left rect - DragState.offsetX (App.dragState app))%R in
  let boundedY :=
    bounded (clientY - Rect.top rect - DragState.offsetY (App.dragState app))%R in
  App.tiles (fst (performMove (Some (clientX, clientY)) (Some rect) app ids)) =
    map (fun tile => if String.eqb (Tile.id tile) tileId
                     then withPosition tile boundedX boundedY
                     else tile)
        (App.tiles app) /\
  (50 <= boundedX <= 550)%R /\ (50 <= boundedY <= 550)%R.
Proof.
  intros Hdrag Hid. cbv zeta.
  split; [|split; apply bounded_range].
  unfold performMove. rewrite Hdrag, Hid. cbn [negb]. unfold bind, ret.
  real_ops.
  match goal with |- context [mapGen ?f ?l ?s] =>
    pose proof (mapGen_fst f
                  (fun tile => if hasId tileId tile
                               then withPosition tile
                                      (bounded (clientX - Rect.left rect -
                                                DragState.offsetX (App.dragState app))%R)
                                      (bounded (clientY - Rect.top rect -
                                                DragState.offsetY (App.dragState app))%R)
                               else tile)
                  l (fun a s' _ => moveTile_effect _ _ _ _ a s') s) as Hmap;
    destruct (mapGen f l s) as [tiles ids1]
  end.
  cbn [fst] in *. unfold setTilesAndSelected. cbn [App.tiles]. exact Hmap.
Qed.

(** X15: while a tile is dragged, [performMove] puts the tiles that have the
    dragged identifier at the pointer position less the offset, each
    coordinate clamped to [[50, 550]], and leaves every other tile as it is:
    the mirrors of the dragged tile do not follow it. *)
Theorem performMove_moves_the_dragged_tile_only
        (clientX clientY : R) (rect : Rect.t R) (app : App.t R)
        (tileId : string) (ids : IdSource) :
  DragState.isDragging (App.dragState app) = true ->
  truthyId (DragState.tileId (App.dragState app)) = Some tileId ->
  let boundedX :=
    bounded (clientX - Rect.left rect - DragState.offsetX (App.dragState app))%R in
  let boundedY :=
    bounded (clientY - Rect.top rect - DragState.offsetY (App.dragState app))%R in
  App.tiles (fst (performMove (Some (clientX, clientY)) (Some rect) app ids)) =
    map (fun tile => if String.eqb (Tile.id tile) tileId
                     then withPosition tile boundedX boundedY
                     else tile)
        (App.tiles app) /\
  (50 <= boundedX <= 550)%R /\ (50 <= boundedY <= 550)%R.
Proof.
  intros Hdrag Hid.
  exact (performMove_tiles
           clientX clientY rect app tileId ids Hdrag Hid).
Qed.

Lemma performMove_moves_the_dragged_tile_only_witness :
  App.tiles (fst (performMove (Some (400%R, 900%R)) (Some (Rect.mk 0%R 0%R))
                    mirroredPair letters)) =
    map (fun tile => if String.eqb (Tile.id tile) "t"
                     then withPosition tile (bounded (400 - 0 - 0)%R)
                                            (bounded (900 - 0 - 0)%R)
                     else tile)
        (App.tiles mirroredPair) /\
  (50 <= bounded (400 - 0 - 0)%R <= 550)%R /\
  (50 <= bounded (900 - 0 - 0)%R <= 550)%R.
Proof.
  apply (performMove_moves_the_dragged_tile_only
           400 900 (Rect.mk 0%R 0%R) mirroredPair "t" letters); reflexivity.
Defined.





(** ** Exact arithmetic: releasing a dragged tile *)

Section RealRelease.
Local Open Scope R_scope.



End RealRelease.


(** X19: [handleTouchEnd] always leaves the cleared drag state, so that a
    second release changes nothing; it adds and removes no tile, and either
    leaves the tiles as they are or puts those that have the dragged
    identifier at one place within [[50, 550]] on both axes, every other
    tile being left as it is. *)
Theorem release_clears_the_drag_and_moves_the_dragged_tile_only
        (app : App.t R) :
  let app' := handleTouchEnd app in
  App.dragState app' = noDrag /\
  handleTouchEnd app' = app' /\
  (App.tiles app' = App.tiles app \/
   exists (tileId : string) (newX newY : R),
     truthyId (DragState.tileId (App.dragState app)) = Some tileId /\
     (50 <= newX <= 550)%R /\ (50 <= newY <= 550)%R /\
     App.tiles app' =
       map (fun tile => if String.eqb (Tile.id tile) tileId
                        then withPosition tile newX newY
                        else tile)
           (App.tiles app)).
Proof.
  cbv zeta. split; [reflexivity|]. split; [reflexivity|].
  unfold handleTouchEnd, snapDragged, setDragState. cbn [App.tiles].
  destruct (DragState.isDragging (App.dragState app)); [|left; reflexivity].
  destruct (truthyId (DragState.tileId (App.dragState app))) as [tileId|];
    [|left; reflexivity].
  destruct (find (hasId tileId) (App.tiles app)) as [draggedTile|];
    [|left; reflexivity].
  destruct (bestSnapAmong draggedTile _) as [[other P]|]; [|left; reflexivity].
  right. exists tileId, (bounded (Point.x P)), (bounded (Point.y P)).
  split; [reflexivity|].
  split; [apply bounded_range|]. split; [apply bounded_range|].
  reflexivity.
Qed.

(** ** Suggestions and the smart fill *)

Section AnyNumberSuggestions.
Context {N : Type} `{Number N} `{Trig N} `{Operators N} `{Atan2 N}.

Lemma evenIndexed_In {A : Type} (a : A) (l : list A) :
  In a (evenIndexed l) -> In a l.
Proof.
  unfold evenIndexed. intros Hin.
  apply in_map_iff in Hin. destruct Hin as [[i b] [Hb Hin]].
  cbn [snd] in Hb. subst b.
  apply filter_In in Hin. destruct Hin as [Hin _].
  apply in_combine_r in Hin. exact Hin.
Qed.

(** Where a suggestion comes from, and the tests it has passed. *)
Lemma in_suggestions (app : App.t N) (s : SuggestionPoint.t N) :
  In s (suggestions app) ->
  App.showSuggestions app = true /\
  exists tile edge,
    In tile (App.tiles app) /\
    Tile.isSymmetryMirror tile <> Some true /\
    In edge (getShapeEdges tile) /\
    In (SuggestionPoint.shape s) [ square; hexagon; triangle ] /\
    SuggestionPoint.rotation s = lit 0 /\
    SuggestionPoint.x s =
      add (Point.x (Edge.midpoint edge))
          (mul (Point.x (Edge.normal edge))
               (centerToEdgeDistance (SuggestionPoint.shape s))) /\
    SuggestionPoint.y s =
      add (Point.y (Edge.midpoint edge))
          (mul (Point.y (Edge.normal edge))
               (centerToEdgeDistance (SuggestionPoint.shape s))) /\
    inBounds (SuggestionPoint.x s) (SuggestionPoint.y s) = true /\
    existsb (tooClose (SuggestionPoint.x s) (SuggestionPoint.y s))
            (App.tiles app) = false.
Proof.
  unfold suggestions.
  destruct (App.showSuggestions app); cbn [negb orb]; [|intros []].
  destruct (Nat.eqb _ 0); [intros []|].
  intros Hin. split; [reflexivity|].
  apply in_flat_map in Hin. destruct Hin as [tile [Htile Hin]].
  exists tile. unfold suggestionsFrom in Hin.
  assert (Hmirror : Tile.isSymmetryMirror tile <> Some true)
    by (intros E; rewrite E in Hin; exact Hin).
  assert (Hin' : In s (flat_map (fun p => suggestionAt (App.tiles app) (snd p) (fst p))
                         (combine (seq 0 (List.length (evenIndexed (getShapeEdges tile))))
                                  (evenIndexed (getShapeEdges tile)))))
    by (destruct (Tile.isSymmetryMirror tile) as [[|]|];
        [congruence | exact Hin | exact Hin]).
  clear Hin. apply in_flat_map in Hin'. destruct Hin' as [[i edge] [Hedge Hin]].
  exists edge. cbn [fst snd] in Hin.
  apply in_combine_r, evenIndexed_In in Hedge.
  unfold suggestionAt in Hin. cbv zeta in Hin.
  match type of Hin with
  | context [nth ?k (compatibleShapesAt ?a) triangle] =>
      set (shape := nth k (compatibleShapesAt a) triangle) in *;
      assert (Hshape : In shape [ square; hexagon; triangle ])
  end.
  { subst shape.
    match goal with |- context [compatibleShapesAt ?a] =>
      unfold compatibleShapesAt;
      repeat match goal with
             | |- context [if ?c then _ else _] => destruct c
             end
    end;
    match goal with |- context [nth ?k _ _] =>
      generalize k; intros [|[|[|n]]]; cbn; auto
    end. }
  destruct (inBounds _ _) eqn:Hbounds; [|destruct Hin].
  destruct (existsb _ _) eqn:Hfree; cbn [negb] in Hin; [destruct Hin|].
  destruct Hin as [<- | []].
  cbn [SuggestionPoint.x SuggestionPoint.y SuggestionPoint.shape
       SuggestionPoint.rotation].
  repeat split; assumption.
Qed.

End AnyNumberSuggestions.

(** X20: in exact arithmetic every suggestion is unrotated, is a square, a
    hexagon or a triangle, lies strictly within [(80, 520)] on both axes and
    at least 50 from the center of every tile; it is offset from the
    midpoint of an edge of a tile that is not a mirror, along the normal of
    this edge, by the [centerToEdgeDistance] of its shape; and there are
    suggestions only when they are shown. *)
Theorem suggestions_are_in_bounds_and_free (app : App.t R) :
  Forall (fun s =>
            App.showSuggestions app = true /\
            SuggestionPoint.rotation s = 0%R /\
            In (SuggestionPoint.shape s) [ square; hexagon; triangle ] /\
            (80 < SuggestionPoint.x s < 520)%R /\
            (80 < SuggestionPoint.y s < 520)%R /\
            Forall (fun tile => (50 <= distanceTo s tile)%R) (App.tiles app) /\
            exists tile edge,
              In tile (App.tiles app) /\
              Tile.isSymmetryMirror tile <> Some true /\
              In edge (getShapeEdges tile) /\
              SuggestionPoint.x s =
                (Point.x (Edge.midpoint edge) +
                 Point.x (Edge.normal edge) *
                 centerToEdgeDistance (SuggestionPoint.shape s))%R /\
              SuggestionPoint.y s =
                (Point.y (Edge.midpoint edge) +
                 Point.y (Edge.normal edge) *
                 centerToEdgeDistance (SuggestionPoint.shape s))%R)
         (suggestions app).
Proof.
  apply Forall_forall. intros s Hin.
  destruct (in_suggestions app s Hin)
    as [Hshow [tile [edge [Htile [Hmirror [Hedge [Hshape [Hrot [Hx [Hy [Hb Hfree]]]]]]]]]]].
  split; [exact Hshow|]. split; [exact Hrot|]. split; [exact Hshape|].
  unfold inBounds in Hb.
  repeat (apply andb_true_iff in Hb; destruct Hb as [Hb ?]).
  real_ops.
  repeat match goal with
         | H : Rgtb _ _ = true |- _ => apply Rgtb_true in H
         | H : Rltb _ _ = true |- _ => apply Rltb_true in H
         end.
  split; [lra|]. split; [lra|]. split.
  - apply Forall_forall. intros t Ht.
    assert (Hclose : tooClose (SuggestionPoint.x s) (SuggestionPoint.y s) t = false).
    { destruct (tooClose _ _ t) eqn:E; [|reflexivity].
      rewrite <- Hfree. symmetry. apply existsb_exists. exists t. auto. }
    unfold tooClose, Math_pow2 in Hclose. real_ops.
    apply Rltb_false in Hclose. exact Hclose.
  - exists tile, edge. repeat split; assumption.
Qed.

Section AnyNumberFill.
Context {N : Type} `{Number N} `{Trig N} `{Operators N} `{Atan2 N}.

Lemma tilesOfSuggestion_run (app : App.t N) (s : SuggestionPoint.t N)
      (ids : IdSource) :
  let r := tilesOfSuggestion app s ids in
  let added := 1 + mirrorCount (App.symmetryMode app) in
  map (@Tile.id N) (fst r) = map (draws ids) (seq (drawn ids) added) /\
  draws (snd r) = draws ids /\
  drawn (snd r) = drawn ids + added.
Proof.
  cbv zeta. unfold tilesOfSuggestion, bind, generateId, ret.
  destruct (App.symmetryMode app); cbn; repeat split; lia.
Qed.

Lemma fill_run (app : App.t N) (l : list (SuggestionPoint.t N)) :
  forall ids,
    let r := mapGen (tilesOfSuggestion app) l ids in
    let added := List.length l * (1 + mirrorCount (App.symmetryMode app)) in
    map (@Tile.id N) (List.concat (fst r)) =
      map (draws ids) (seq (drawn ids) added) /\
    draws (snd r) = draws ids /\
    drawn (snd r) = drawn ids + added.
Proof.
  cbv zeta. induction l as [|s l IH]; intros ids.
  - cbn. repeat split. lia.
  - cbn [mapGen]. unfold bind.
    destruct (tilesOfSuggestion_run app s ids) as [Hids [Hdraws Hdrawn]].
    destruct (tilesOfSuggestion app s ids) as [b ids1]. cbn [fst snd] in *.
    destruct (IH ids1) as [Hids' [Hdraws' Hdrawn']].
    destruct (mapGen (tilesOfSuggestion app) l ids1) as [bs ids2].
    cbn [fst snd ret List.concat List.length] in *.
    rewrite map_app, Hids, Hids', Hdraws, Hdrawn.
    split; [|split; [congruence | lia]].
    rewrite <- map_app. f_equal.
    replace ((S (List.length l)) * (1 + mirrorCount (App.symmetryMode app)))
      with ((1 + mirrorCount (App.symmetryMode app)) +
            List.length l * (1 + mirrorCount (App.symmetryMode app))) by lia.
    symmetry. apply seq_app.
Qed.

(** Without shown suggestions [fillPattern] changes nothing. *)
Lemma fillPattern_hidden (app : App.t N) (ids : IdSource) :
  App.showSuggestions app = false -> fillPattern app ids = (app, ids).
Proof.
  intros Hshow. unfold fillPattern, suggestions. rewrite Hshow.
  cbn [negb orb mapGen]. unfold bind, ret. cbn [List.concat].
  rewrite app_nil_r. destruct app; cbn in *; subst; reflexivity.
Qed.

End AnyNumberFill.

(** X21: [fillPattern] puts, after the tiles already there, one tile per
    suggestion followed by its mirrors; their identifiers are the next
    draws, in order, one per new tile; it hides the suggestions, so that
    none is left and a second call changes nothing and draws nothing. *)
Theorem fillPattern_adds_each_suggestion_with_its_mirrors
        (N : Type) (num : Number N) (trig : Trig N) (ops : Operators N)
        (atan : Atan2 N) (app : App.t N) (ids : IdSource) :
  let r := fillPattern app ids in
  let added :=
    List.length (suggestions app) * (1 + mirrorCount (App.symmetryMode app)) in
  firstn (List.length (App.tiles app)) (App.tiles (fst r)) = App.tiles app /\
  map (@Tile.id N) (skipn (List.length (App.tiles app)) (App.tiles (fst r))) =
    map (draws ids) (seq (drawn ids) added) /\
  drawn (snd r) = drawn ids + added /\
  App.showSuggestions (fst r) = false /\
  suggestions (fst r) = [] /\
  fillPattern (fst r) (snd r) = r.
Proof.
  cbv zeta.
  assert (Hagain : fillPattern (fst (fillPattern app ids)) (snd (fillPattern app ids)) =
                   fillPattern app ids).
  { rewrite fillPattern_hidden; [symmetry; apply surjective_pairing|].
    unfold fillPattern, bind, ret.
    destruct (mapGen (tilesOfSuggestion app) (suggestions app) ids); reflexivity. }
  assert (Hnone : suggestions (fst (fillPattern app ids)) = []).
  { unfold fillPattern, bind, ret.
    destruct (mapGen (tilesOfSuggestion app) (suggestions app) ids); reflexivity. }
  split; [|split; [|split; [|split; [|split; [exact Hnone | exact Hagain]]]]].
  all: unfold fillPattern, bind, ret;
    destruct (fill_run app (suggestions app) ids) as [Hids [_ Hdrawn]];
    destruct (mapGen (tilesOfSuggestion app) (suggestions app) ids)
      as [newTiles ids1];
    cbn [fst snd App.tiles App.showSuggestions] in *.
  - rewrite firstn_app, firstn_all, Nat.sub_diag; apply app_nil_r.
  - rewrite skipn_app, skipn_all, Nat.sub_diag; exact Hids.
  - exact Hdrawn.
  - reflexivity.
Qed.

(** ** Exact arithmetic: the states that the events reach *)

Section RealReach.
Local Open Scope R_scope.


Lemma validTile_withPosition (tile : Tile.t R) (x y : R) :
  validTile tile -> validTile (withPosition tile x y).
Proof. intros Hv. exact Hv. Qed.





















End RealReach.


(** X23: the square [[50, 550]] to which drags, releases and arrow keys
    confine a tile is not an invariant of the reachable states: a few
    duplications of the latest copy, which [duplicateTile] puts 60 further
    right and down without clamping, reach a state with a tile beyond 550 on
    both axes. *)
Theorem duplicates_leave_the_bounds_of_the_drag :
  exists (events : list (Event R)) (ids : IdSource),
    Exists (fun tile => (550 < Tile.x tile)%R /\ (550 < Tile.y tile)%R)
           (App.tiles (fst (run events initialApp ids))).
Proof.
  exists [ ClickShape square;
           FocusTile 0; ClickDuplicate;
           FocusTile 1; ClickDuplicate;
           FocusTile 2; ClickDuplicate;
           FocusTile 3; ClickDuplicate;
           FocusTile 4; KeyDown "d" false ], letters.
  cbn. real_ops.
  do 5 apply Exists_cons_tl. apply Exists_cons_hd.
  cbn [Tile.x Tile.y]. split; lra.
Qed.
